(** * PyFrame publishing script ([scripts/publish.py])

    A shallow embedding of the script and the properties of its workflow:
    requirement checking, artifact cleaning, the command runner and the
    interactive dispatcher [main].

    Modelling conventions.
    - A Python [str] is a Rocq [string]; a character is a code point below
      256.  [strip] and [lower] follow [str.strip()] and [str.lower()] on
      that range.  Message literals are kept byte for byte as in the source.
    - The working directory is an association list from entry names to
      nodes, in listing order.  A node is a regular file, a directory, a
      directory that the user may not delete, or a symbolic link to a file
      or to a directory.
    - The outside world (installed packages, the interpreter path, what a
      child process does, whether the standard output can be flushed when
      the interpreter exits) is an [env]; child processes may change the
      working directory.
    - Library calls raise as the library does: [shutil.rmtree] on a regular
      file, on a symbolic link and on a tree it may not delete;
      [subprocess.run] when the child cannot be started, when its output is
      not text, and on a malformed command; [input] at the end of the
      input.  [print] always succeeds.
    - Effects are a state and exception monad that also returns the events
      of the run in order: printed lines, prompts with the line read,
      imports, removed trees and the calls of [subprocess.run] with their
      outcome.  A [Call] event marks the entry into [clean_build],
      [build_package], [check_package], [upload_to_test_pypi] and
      [upload_to_pypi]. *)

From Stdlib Require Import List String Ascii Bool ZArith Lia.
Import ListNotations.
Open Scope string_scope.

(** ** Python strings *)

Module PyStr.

(** [str.isspace] for one character with code point below 256. *)
Definition isspace (c : ascii) : bool :=
  let n := nat_of_ascii c in
  ((9 <=? n) && (n <=? 13) || (28 <=? n) && (n <=? 32)
   || (n =? 133) || (n =? 160))%nat.

Fixpoint lstrip (s : string) : string :=
  match s with
  | EmptyString => EmptyString
  | String c s' => if isspace c then lstrip s' else s
  end.

Fixpoint rstrip (s : string) : string :=
  match s with
  | EmptyString => EmptyString
  | String c s' =>
      match rstrip s' with
      | EmptyString => if isspace c then EmptyString else String c EmptyString
      | r => String c r
      end
  end.

(** [s.strip()] *)
Definition strip (s : string) : string := lstrip (rstrip s).

(** [str.lower] for one character with code point below 256. *)
Definition lower_char (c : ascii) : ascii :=
  let n := nat_of_ascii c in
  if ((65 <=? n) && (n <=? 90)
      || (192 <=? n) && (n <=? 222) && negb (n =? 215))%nat
  then ascii_of_nat (n + 32) else c.

(** [s.lower()] *)
Fixpoint lower (s : string) : string :=
  match s with
  | EmptyString => EmptyString
  | String c s' => String (lower_char c) (lower s')
  end.

(** [sep.join(l)] *)
Definition join (sep : string) (l : list string) : string :=
  String.concat sep l.

(** [c in s] for a one-character [c]. *)
Fixpoint contains (c : ascii) (s : string) : bool :=
  match s with
  | EmptyString => false
  | String d s' => Ascii.eqb c d || contains c s'
  end.

(** [s * n] *)
Fixpoint times (s : string) (n : nat) : string :=
  match n with
  | O => EmptyString
  | S n' => s ++ times s n'
  end.

(** [x in l] for a list of strings. *)
Definition mem (x : string) (l : list string) : bool :=
  existsb (String.eqb x) l.

(** [fnmatch.fnmatchcase(name, pat)] for patterns made of literal
    characters, [*] and [?]. *)
Fixpoint fnmatch (pat : string) : string -> bool :=
  match pat with
  | EmptyString =>
      fun name => match name with EmptyString => true | _ => false end
  | String "*" p =>
      fix star (name : string) : bool :=
        fnmatch p name
        || match name with
           | EmptyString => false
           | String _ n' => star n'
           end
  | String "?" p =>
      fun name => match name with String _ n' => fnmatch p n' | _ => false end
  | String c p =>
      fun name =>
        match name with
        | String d n' => Ascii.eqb c d && fnmatch p n'
        | EmptyString => false
        end
  end.

(** [glob._ishidden] *)
Definition ishidden (s : string) : bool :=
  match s with
  | String "." _ => true
  | _ => false
  end.

End PyStr.

(** ** The working directory *)

(** What a symbolic link points to. *)
Inductive target : Type :=
| ToFile
| ToDir.

(** [Locked] is a directory tree that holds something the user may not
    delete; what it holds is not followed. *)
#[warnings="-register-all"]
Inductive node : Type :=
| File : node
| Dir : list (string * node) -> node
| Locked : node
| Link : target -> node.

Definition dir : Type := list (string * node).

Fixpoint lookup (name : string) (d : dir) : option node :=
  match d with
  | [] => None
  | (n, x) :: d' => if String.eqb name n then Some x else lookup name d'
  end.

(** Removes the entry [lookup] finds. *)
Fixpoint remove_entry (name : string) (d : dir) : dir :=
  match d with
  | [] => []
  | (n, x) :: d' =>
      if String.eqb name n then d' else (n, x) :: remove_entry name d'
  end.

(** [os.path.isdir] follows symbolic links. *)
Definition is_dir (x : node) : bool :=
  match x with
  | Dir _ | Locked | Link ToDir => true
  | File | Link ToFile => false
  end.

(** [os.path.exists(name)] *)
Definition path_exists (name : string) (d : dir) : bool :=
  match lookup name d with Some _ => true | None => false end.

(** [os.path.isdir(name)] *)
Definition path_isdir (name : string) (d : dir) : bool :=
  match lookup name d with Some x => is_dir x | None => false end.

(** [os.listdir('.')], in listing order. *)
Definition listdir (d : dir) : list string := map fst d.

(** [glob.glob(pattern)] for a pattern without a directory part: the
    entries of the working directory that match, hidden entries left out
    unless the pattern itself starts with a dot. *)
Definition glob (pattern : string) (d : dir) : list string :=
  let names :=
    if PyStr.ishidden pattern then listdir d
    else filter (fun x => negb (PyStr.ishidden x)) (listdir d) in
  filter (PyStr.fnmatch pattern) names.

(** ** The world, events and the effect monad *)

(** How a call of [subprocess.run] with [text=True] ends: with a completed
    process; with [OSError] when the child could not be started; with
    [UnicodeDecodeError] when the child ran and ended but its output is not
    text in the encoding of the locale; with [ValueError] when an argument
    cannot be handed to the operating system (an embedded null byte). *)
Inductive run_outcome : Type :=
| Completed (returncode : Z) (stdout stderr : string)
| NotStarted
| Undecodable
| Rejected.

Record env : Type := {
  importable : string -> bool;
  sys_executable : string;
  subprocess_run : list string -> option string -> dir -> run_outcome * dir;
  stdout_flushes : bool
}.

Record state : Type := {
  fs : dir;
  stdin : list string
}.

(** The functions of the script that act on the working directory or on
    a package index. *)
Inductive func : Type :=
| clean_build_f
| build_package_f
| check_package_f
| upload_to_test_pypi_f
| upload_to_pypi_f.

Inductive event : Type :=
| Call (f : func)
| Print (line : string)
| Input (prompt : string) (line : option string)
| Import (name : string) (ok : bool)
| Load (module : string)
| Rmtree (path : string)
| Spawn (cmd : list string) (cwd : option string) (r : run_outcome).

Inductive exn : Type :=
| SystemExit (code : Z)
| ImportError (name : string)
| NotADirectoryError (path : string)
| FileNotFoundError (path : string)
| EOFError
| OSError (cmd : list string)
| SymlinkError (path : string)
| PermissionError (path : string)
| UnicodeDecodeError
| ValueError
| IndexError.

Inductive res (A : Type) : Type :=
| Ok (a : A)
| Raise (e : exn).
Arguments Ok {A} a.
Arguments Raise {A} e.

Definition M (A : Type) : Type := state -> res A * state * list event.

Definition ret {A} (a : A) : M A := fun s => (Ok a, s, []).

Definition bind {A B} (m : M A) (k : A -> M B) : M B :=
  fun s =>
    match m s with
    | (Ok a, s1, e1) =>
        match k a s1 with
        | (r, s2, e2) => (r, s2, (e1 ++ e2)%list)
        end
    | (Raise x, s1, e1) => (Raise x, s1, e1)
    end.

Definition raise {A} (x : exn) : M A := fun s => (Raise x, s, []).

Definition emit (e : event) : M unit := fun s => (Ok tt, s, [e]).

Declare Scope py_scope.
Delimit Scope py_scope with py.
Notation "x <- m ;; k" := (bind m (fun x => k))
  (at level 61, m at next level, right associativity) : py_scope.
Notation "m ;; k" := (bind m (fun _ => k))
  (at level 61, right associativity) : py_scope.
Open Scope py_scope.

(** [try: body except ImportError: handler] *)
Definition try_except_ImportError {A} (body handler : M A) : M A :=
  fun s =>
    match body s with
    | (Raise (ImportError _), s1, e1) =>
        match handler s1 with
        | (r, s2, e2) => (r, s2, (e1 ++ e2)%list)
        end
    | other => other
    end.

(** Exit status of the interpreter for a run of [main]: 0 when [main]
    returns, the code of [sys.exit], 1 for an uncaught exception. *)
Definition exit_status (r : res unit) : Z :=
  match r with
  | Ok _ => 0
  | Raise (SystemExit c) => c
  | Raise _ => 1
  end.

(** Exit status of the process: the interpreter flushes the standard
    output when it exits, and exits with status 120 when that fails. *)
Definition process_exit (E : env) (r : res unit) : Z :=
  if stdout_flushes E then exit_status r else 120.

(** The exception [shutil.rmtree] raises on a node it does not remove:
    [NotADirectoryError] on a regular file, [OSError] (cannot call rmtree
    on a symbolic link) on a link, [PermissionError] on a tree the user may
    not delete. *)
Definition rmtree_error (path : string) (x : node) : option exn :=
  match x with
  | Dir _ => None
  | File => Some (NotADirectoryError path)
  | Link _ => Some (SymlinkError path)
  | Locked => Some (PermissionError path)
  end.

(** ** The script *)

Definition nl : string := String (ascii_of_nat 10) EmptyString.

Record CompletedProcess : Type := {
  returncode : Z;
  stdout : string;
  stderr : string
}.

Section Script.

Variable E : env.

(** *** Built-ins and library calls *)

Definition print (line : string) : M unit := emit (Print line).

(** [input(prompt)]: shows the prompt and reads one line; [EOFError] at the
    end of the input. *)
Definition input (prompt : string) : M string :=
  fun s =>
    match stdin s with
    | [] => (Raise EOFError, s, [Input prompt None])
    | line :: rest =>
        (Ok line, {| fs := fs s; stdin := rest |}, [Input prompt (Some line)])
    end.

(** [__import__(name)] *)
Definition import_ (name : string) : M unit :=
  if importable E name then emit (Import name true)
  else emit (Import name false) ;; raise (ImportError name).

(** [import name] for a module of the standard library. *)
Definition import_stmt (name : string) : M unit := emit (Load name).

Definition sys_exit {A} (code : Z) : M A := raise (SystemExit code).

Definition os_path_exists (path : string) : M bool :=
  fun s => (Ok (path_exists path (fs s)), s, []).

Definition os_path_isdir (path : string) : M bool :=
  fun s => (Ok (path_isdir path (fs s)), s, []).

Definition glob_glob (pattern : string) : M (list string) :=
  fun s => (Ok (glob pattern (fs s)), s, []).

(** [shutil.rmtree(path)]: removes a directory with all it holds; raises on
    a missing path and on a node it does not remove, which then stays. *)
Definition shutil_rmtree (path : string) : M unit :=
  fun s =>
    match lookup path (fs s) with
    | Some x =>
        match rmtree_error path x with
        | None =>
            (Ok tt, {| fs := remove_entry path (fs s); stdin := stdin s |},
             [Rmtree path])
        | Some e => (Raise e, s, [])
        end
    | None => (Raise (FileNotFoundError path), s, [])
    end.

(** [subprocess.run(cmd, cwd=cwd, capture_output=True, text=True)]; an
    empty command raises [IndexError]. *)
Definition subprocess_run_ (cmd : list string) (cwd : option string)
  : M CompletedProcess :=
  fun s =>
    match cmd with
    | [] => (Raise IndexError, s, [Spawn cmd cwd Rejected])
    | _ :: _ =>
        match subprocess_run E cmd cwd (fs s) with
        | (Completed rc out err, d) =>
            (Ok {| returncode := rc; stdout := out; stderr := err |},
             {| fs := d; stdin := stdin s |},
             [Spawn cmd cwd (Completed rc out err)])
        | (NotStarted, _) =>
            (Raise (OSError cmd), s, [Spawn cmd cwd NotStarted])
        | (Undecodable, d) =>
            (Raise UnicodeDecodeError, {| fs := d; stdin := stdin s |},
             [Spawn cmd cwd Undecodable])
        | (Rejected, _) => (Raise ValueError, s, [Spawn cmd cwd Rejected])
        end
    end.

(** [for x in l: body x] *)
Fixpoint for_each {A} (l : list A) (body : A -> M unit) : M unit :=
  match l with
  | [] => ret tt
  | x :: l' => body x ;; for_each l' body
  end.

(** [if c: body] *)
Definition when (c : bool) (body : M unit) : M unit :=
  if c then body else ret tt.

Definition nonempty (s : string) : bool :=
  match s with EmptyString => false | _ => true end.

(** *** [run_command] *)

Definition run_command (cmd : list string) (cwd : option string) : M bool :=
  print ("Running: " ++ PyStr.join " " cmd) ;;
  result <- subprocess_run_ cmd cwd ;;
  if negb (returncode result =? 0)%Z then
    print ("❌ Command failed: " ++ PyStr.join " " cmd) ;;
    print ("Error: " ++ stderr result) ;;
    ret false
  else
    when (nonempty (stdout result)) (print (stdout result)) ;;
    ret true.

(** *** [check_requirements] *)

Definition required_packages : list string := ["build"; "twine"].

(** The [for] loop of [check_requirements] with what follows it; [return
    False] in the handler leaves the loop and the function. *)
Fixpoint check_requirements_loop (packages : list string) : M bool :=
  match packages with
  | [] => ret true
  | package :: rest =>
      returned <-
        try_except_ImportError
          (import_ package ;;
           print ("✅ " ++ package ++ " is installed") ;;
           ret None)
          (print ("❌ " ++ package ++ " is not installed") ;;
           print ("Install with: pip install " ++ package) ;;
           ret (Some false)) ;;
      match returned with
      | Some b => ret b
      | None => check_requirements_loop rest
      end
  end.

Definition check_requirements : M bool :=
  print "🔍 Checking requirements..." ;;
  check_requirements_loop required_packages.

(** *** [clean_build] *)

Definition dirs_to_clean : list string := ["build"; "dist"; "*.egg-info"].

(** The body of the loop over the matches of a pattern. *)
Definition remove_matched (path : string) : M unit :=
  isdir <- os_path_isdir path ;;
  when isdir
    (import_stmt "shutil" ;;
     shutil_rmtree path ;;
     print ("Removed " ++ path)).

(** The body of the loop over [dirs_to_clean]. *)
Definition clean_pattern (pattern : string) : M unit :=
  if PyStr.contains "*" pattern then
    import_stmt "glob" ;;
    paths <- glob_glob pattern ;;
    for_each paths remove_matched
  else
    found <- os_path_exists pattern ;;
    when found
      (import_stmt "shutil" ;;
       shutil_rmtree pattern ;;
       print ("Removed " ++ pattern)).

Definition clean_build : M unit :=
  emit (Call clean_build_f) ;;
  print "🧹 Cleaning build artifacts..." ;;
  for_each dirs_to_clean clean_pattern.

(** *** The build, check and upload commands *)

Definition build_cmd : list string := [sys_executable E; "-m"; "build"].

Definition check_cmd : list string :=
  [sys_executable E; "-m"; "twine"; "check"; "dist/*"].

Definition upload_test_cmd : list string :=
  [sys_executable E; "-m"; "twine"; "upload";
   "--repository"; "testpypi";
   "dist/*"].

Definition upload_cmd : list string :=
  [sys_executable E; "-m"; "twine"; "upload"; "dist/*"].

Definition build_package : M bool :=
  emit (Call build_package_f) ;;
  print "📦 Building package..." ;;
  run_command build_cmd None.

Definition check_package : M bool :=
  emit (Call check_package_f) ;;
  print "🔍 Checking package..." ;;
  run_command check_cmd None.

Definition upload_to_test_pypi : M bool :=
  emit (Call upload_to_test_pypi_f) ;;
  print "📤 Uploading to Test PyPI..." ;;
  run_command upload_test_cmd None.

Definition upload_to_pypi : M bool :=
  emit (Call upload_to_pypi_f) ;;
  print "📤 Uploading to PyPI..." ;;
  run_command upload_cmd None.

(** *** [main] *)

Definition menu_prompt : string := nl ++ "Enter your choice (1-4): ".

Definition confirm_prompt : string :=
  "Are you sure? This cannot be undone (y/N): ".

(** The part of [main] after the package was built and checked. *)
Definition publish (choice : string) : M unit :=
  if String.eqb choice "2" then
    ok <- upload_to_test_pypi ;;
    if ok then
      print "✅ Successfully uploaded to Test PyPI!" ;;
      print "🔗 Check your package at: https://test.pypi.org/project/pyframe/" ;;
      print "💡 Test install with: pip install -i https://test.pypi.org/simple/ pyframe"
    else
      print "❌ Upload to Test PyPI failed!" ;;
      sys_exit 1
  else if String.eqb choice "3" then
    print "⚠️  You are about to upload to PyPI (production)!" ;;
    answer <- input confirm_prompt ;;
    let confirm := PyStr.lower (PyStr.strip answer) in
    if negb (String.eqb confirm "y") then
      print "❌ Upload cancelled." ;;
      sys_exit 1
    else
      ok <- upload_to_pypi ;;
      if ok then
        print "🎉 Successfully uploaded to PyPI!" ;;
        print "🔗 Check your package at: https://pypi.org/project/pyframe/" ;;
        print "💡 Users can now install with: pip install pyframe"
      else
        print "❌ Upload to PyPI failed!" ;;
        sys_exit 1
  else ret tt.

(** The part of [main] from the menu on. *)
Definition dispatch : M unit :=
  print (nl ++ "What would you like to do?") ;;
  print "1. Build package only" ;;
  print "2. Build and upload to Test PyPI" ;;
  print "3. Build and upload to PyPI (production)" ;;
  print "4. Clean build artifacts" ;;
  line <- input menu_prompt ;;
  let choice := PyStr.strip line in
  if String.eqb choice "4" then
    clean_build ;;
    print "✅ Build artifacts cleaned!"
  else if negb (PyStr.mem choice ["1"; "2"; "3"]) then
    print "❌ Invalid choice. Exiting." ;;
    sys_exit 1
  else
    clean_build ;;
    built <- build_package ;;
    if negb built then
      print "❌ Build failed!" ;;
      sys_exit 1
    else
      checked <- check_package ;;
      if negb checked then
        print "❌ Package check failed!" ;;
        sys_exit 1
      else
        print "✅ Package built and checked successfully!" ;;
        if String.eqb choice "1" then
          print "📦 Package is ready in the 'dist' directory."
        else publish choice.

Definition main : M unit :=
  print "🚀 PyFrame Publishing Script" ;;
  print (PyStr.times "=" 40) ;;
  marker <- os_path_exists "pyproject.toml" ;;
  if negb marker then
    print "❌ Error: pyproject.toml not found. Run this script from the project root." ;;
    sys_exit 1
  else
    ready <- check_requirements ;;
    if negb ready then
      print (nl ++ "❌ Please install required packages and try again.") ;;
      sys_exit 1
    else dispatch.

End Script.

(** ** Observations on a run *)

Definition calls (evs : list event) : list func :=
  flat_map (fun e => match e with Call f => [f] | _ => [] end) evs.

Definition spawned (evs : list event) : list (list string) :=
  flat_map (fun e => match e with Spawn cmd _ _ => [cmd] | _ => [] end) evs.

Definition removed (evs : list event) : list string :=
  flat_map (fun e => match e with Rmtree p => [p] | _ => [] end) evs.

(** The packages handed to [__import__]. *)
Definition imports (evs : list event) : list string :=
  flat_map (fun e => match e with Import n _ => [n] | _ => [] end) evs.

(** The modules of the standard library named in [import] statements. *)
Definition loaded (evs : list event) : list string :=
  flat_map (fun e => match e with Load m => [m] | _ => [] end) evs.

Definition printed (evs : list event) : list string :=
  flat_map (fun e => match e with Print l => [l] | _ => [] end) evs.

(** The child processes that ended, with their exit statuses. *)
Definition completed (evs : list event) : list (list string * Z) :=
  flat_map (fun e => match e with
                     | Spawn c _ (Completed rc _ _) => [(c, rc)]
                     | _ => []
                     end) evs.

Definition prefix {A} (a b : list A) : Prop :=
  exists rest, (a ++ rest)%list = b.

(** A command that asks twine to upload. *)
Definition is_upload (cmd : list string) : bool :=
  match cmd with
  | _ :: "-m" :: "twine" :: "upload" :: _ => true
  | _ => false
  end.

Definition uploads (evs : list event) : list (list string) :=
  filter is_upload (spawned evs).

(** The result, final state and events of a run. *)
Definition result {A} (x : res A * state * list event) : res A := fst (fst x).
Definition final {A} (x : res A * state * list event) : state := snd (fst x).
Definition events {A} (x : res A * state * list event) : list event := snd x.

(** ** The effect of [clean_build] on the working directory *)

(** The names [glob] keeps for a pattern. *)
Definition matches (pattern name : string) : bool :=
  (PyStr.ishidden pattern || negb (PyStr.ishidden name))
  && PyStr.fnmatch pattern name.

(** The [else] branch of the loop body on a directory: a plain path that
    is removed when it exists. *)
Definition clean_plain (p : string) (d : dir) : res unit * dir :=
  match lookup p d with
  | None => (Ok tt, d)
  | Some x =>
      match rmtree_error p x with
      | None => (Ok tt, remove_entry p d)
      | Some e => (Raise e, d)
      end
  end.

(** The loop over the matches of a pattern; it ends at the first match
    that [shutil.rmtree] does not remove. *)
Fixpoint sweep (paths : list string) (d : dir) : res unit * dir :=
  match paths with
  | [] => (Ok tt, d)
  | p :: rest =>
      if path_isdir p d then
        match clean_plain p d with
        | (Ok _, d1) => sweep rest d1
        | (Raise e, d1) => (Raise e, d1)
        end
      else sweep rest d
  end.

(** The same loop, entry by entry of the directory. *)
Fixpoint sweep_entries (pattern : string) (d : dir) : res unit * dir :=
  match d with
  | [] => (Ok tt, [])
  | (n, y) :: d' =>
      if matches pattern n && is_dir y then
        match rmtree_error n y with
        | None => sweep_entries pattern d'
        | Some e => (Raise e, d)
        end
      else
        (fst (sweep_entries pattern d'),
         (n, y) :: snd (sweep_entries pattern d'))
  end.

Definition cleaned (d : dir) : res unit * dir :=
  match clean_plain "build" d with
  | (Raise e, d1) => (Raise e, d1)
  | (Ok _, d1) =>
      match clean_plain "dist" d1 with
      | (Raise e, d2) => (Raise e, d2)
      | (Ok _, d2) => sweep (glob "*.egg-info" d2) d2
      end
  end.

(** The events of a removal that the loop body tries. *)
Definition removal (p : string) (r : res unit) : list event :=
  match r with
  | Ok _ => [Load "shutil"; Rmtree p; Print ("Removed " ++ p)]
  | Raise _ => [Load "shutil"]
  end.


(** Events other than printed lines, removed trees and [import]
    statements. *)
Definition quiet (e : event) : bool :=
  match e with
  | Print _ | Rmtree _ | Load _ => true
  | _ => false
  end.

Definition trace (evs : list event) : list event :=
  filter (fun e => negb (quiet e)) evs.

(** ** How a run of [main] can fail *)

(** [choice] is one of the four menu entries. *)
Definition valid_choice (choice : string) : bool :=
  PyStr.mem choice ["1"; "2"; "3"; "4"].

Definition is_build (cmd : list string) : bool :=
  match cmd with
  | [_; "-m"; "build"] => true
  | _ => false
  end.

Definition is_check (cmd : list string) : bool :=
  match cmd with
  | _ :: "-m" :: "twine" :: "check" :: _ => true
  | _ => false
  end.

(** The line read at the menu is not a menu entry. *)
Definition invalid_choice (e : event) : bool :=
  match e with
  | Input p (Some line) =>
      String.eqb p menu_prompt && negb (valid_choice (PyStr.strip line))
  | _ => false
  end.

(** The answer read at the confirmation prompt is not a yes. *)
Definition declined (e : event) : bool :=
  match e with
  | Input p (Some line) =>
      String.eqb p confirm_prompt
      && negb (String.eqb (PyStr.lower (PyStr.strip line)) "y")
  | _ => false
  end.

(** A build, check or upload process ended with a non-zero status. *)
Definition failing_step (e : event) : bool :=
  match e with
  | Spawn cmd _ (Completed rc _ _) =>
      negb (rc =? 0)%Z && (is_build cmd || is_check cmd || is_upload cmd)
  | _ => false
  end.

(** The causes of a non-zero exit that the specification lists: no marker
    file, a required tool missing, an invalid menu choice, a failed build,
    check or upload, a declined confirmation. *)
Definition failed (E : env) (s : state) (evs : list event) : bool :=
  negb (path_exists "pyproject.toml" (fs s))
  || negb (forallb (importable E) required_packages)
  || existsb invalid_choice evs
  || existsb failing_step evs
  || existsb declined evs.


(** ** The operations a menu choice prescribes *)

(** The child process ended with status 0. *)
Definition ended_well (o : run_outcome) : bool :=
  match o with
  | Completed rc _ _ => (rc =? 0)%Z
  | _ => false
  end.

Definition returned {A} (r : res A) : bool :=
  match r with Ok _ => true | Raise _ => false end.

Section Prescribed.

Variables (E : env) (s : state).

(** The pipeline of the specification for a run of [main] that starts in
    [s]: the build runs on what the cleanup left, the check on what the
    build left, an upload on what the check left. *)
Definition build_step : run_outcome * dir :=
  subprocess_run E (build_cmd E) None (fs (final (clean_build s))).

Definition check_step : run_outcome * dir :=
  subprocess_run E (check_cmd E) None (snd build_step).

Definition upload_step (cmd : list string) : run_outcome * dir :=
  subprocess_run E cmd None (snd check_step).

(** The line after the menu line, when there is one, answers the
    confirmation prompt. *)
Definition confirmed : bool :=
  match stdin s with
  | _ :: answer :: _ => String.eqb (PyStr.lower (PyStr.strip answer)) "y"
  | _ => false
  end.

(** The upload a choice adds once the package is built and checked. *)
Definition upload_of (choice : string) : option (func * list string) :=
  if String.eqb choice "2" then
    Some (upload_to_test_pypi_f, upload_test_cmd E)
  else if String.eqb choice "3" && confirmed then
    Some (upload_to_pypi_f, upload_cmd E)
  else None.

(** The operations of a choice in order, each with the command it hands to
    [subprocess.run]: Clean, Build, Validate, upload.  The sequence ends
    after the first operation that does not succeed. *)
Definition prescribed (choice : string)
  : list (func * option (list string)) :=
  if String.eqb choice "4" then [(clean_build_f, None)]
  else if negb (PyStr.mem choice ["1"; "2"; "3"]) then []
  else
    (clean_build_f, None)
    :: if returned (result (clean_build s)) then
         (build_package_f, Some (build_cmd E))
         :: if ended_well (fst build_step) then
              (check_package_f, Some (check_cmd E))
              :: if ended_well (fst check_step) then
                   match upload_of choice with
                   | Some (f, cmd) => [(f, Some cmd)]
                   | None => []
                   end
                 else []
            else []
       else [].

(** Every operation of the choice succeeds. *)
Definition completes (choice : string) : bool :=
  if String.eqb choice "4" then returned (result (clean_build s))
  else
    PyStr.mem choice ["1"; "2"; "3"]
    && returned (result (clean_build s))
    && ended_well (fst build_step)
    && ended_well (fst check_step)
    && (String.eqb choice "1"
        || match upload_of choice with
           | Some (_, cmd) => ended_well (fst (upload_step cmd))
           | None => false
           end).

End Prescribed.

(** The commands of a sequence of operations. *)
Definition commands (steps : list (func * option (list string)))
  : list (list string) :=
  flat_map (fun st => match snd st with Some c => [c] | None => [] end) steps.

(** ** Further observations *)

(** The lines read at the prompts, in order. *)
Definition lines_read (evs : list event) : list string :=
  flat_map (fun e => match e with Input _ (Some l) => [l] | _ => [] end) evs.


(** The entries [clean_build] leaves when it completes. *)
Definition kept (e : string * node) : bool :=
  negb (String.eqb (fst e) "build"
        || String.eqb (fst e) "dist"
        || matches "*.egg-info" (fst e) && is_dir (snd e)).

(** ** What [check_requirements] reports *)

(** The packages the loop tries to import: up to and including the first
    one that is missing. *)
Fixpoint attempted (E : env) (packages : list string) : list string :=
  match packages with
  | [] => []
  | p :: rest => p :: (if importable E p then attempted E rest else [])
  end.

(** The events of one turn of the loop. *)
Definition status (E : env) (package : string) : list event :=
  if importable E package then
    [Import package true; Print ("✅ " ++ package ++ " is installed")]
  else
    [Import package false;
     Print ("❌ " ++ package ++ " is not installed");
     Print ("Install with: pip install " ++ package)].

(** The events of [run_command] after the child process has ended. *)
Definition report (cmd : list string) (rc : Z) (out err : string)
  : list event :=
  if (rc =? 0)%Z then
    if nonempty out then [Print out] else []
  else
    [Print ("❌ Command failed: " ++ PyStr.join " " cmd);
     Print ("Error: " ++ err)].

(** ** Sample worlds *)

Module Sample.

(** Every package is installed; every child process succeeds silently; the
    build leaves a [dist] directory behind. *)
Definition all_good : env := {|
  importable := fun _ => true;
  sys_executable := "/usr/bin/python3";
  subprocess_run := fun cmd _ d =>
    match cmd with
    | [_; "-m"; "build"] =>
        (Completed 0 "Successfully built" "",
         ("dist", Dir [("pyframe-0.1.0.tar.gz", File)]) :: d)
    | _ => (Completed 0 "" "", d)
    end;
  stdout_flushes := true
|}.

(** As [all_good], but the build exits with status 1. *)
Definition build_fails : env := {|
  importable := fun _ => true;
  sys_executable := "/usr/bin/python3";
  subprocess_run := fun cmd _ d =>
    match cmd with
    | [_; "-m"; "build"] => (Completed 1 "" "error: no backend", d)
    | _ => (Completed 0 "" "", d)
    end;
  stdout_flushes := true
|}.

(** As [all_good], but the check exits with status 1. *)
Definition check_fails : env := {|
  importable := fun _ => true;
  sys_executable := "/usr/bin/python3";
  subprocess_run := fun cmd _ d =>
    if is_check cmd then (Completed 1 "" "ERROR InvalidDistribution", d)
    else (Completed 0 "" "", d);
  stdout_flushes := true
|}.

(** As [all_good], but every upload exits with status 1. *)
Definition upload_fails : env := {|
  importable := fun _ => true;
  sys_executable := "/usr/bin/python3";
  subprocess_run := fun cmd _ d =>
    if is_upload cmd then (Completed 1 "" "403 Forbidden", d)
    else (Completed 0 "" "", d);
  stdout_flushes := true
|}.

(** No package is installed. *)
Definition nothing_installed : env := {|
  importable := fun _ => false;
  sys_executable := "/usr/bin/python3";
  subprocess_run := fun _ _ d => (Completed 0 "" "", d);
  stdout_flushes := true
|}.


(** As [all_good], but what the build prints is not text. *)
Definition build_garbles : env := {|
  importable := fun _ => true;
  sys_executable := "/usr/bin/python3";
  subprocess_run := fun cmd _ d =>
    match cmd with
    | [_; "-m"; "build"] =>
        (Undecodable, ("dist", Dir [("pyframe-0.1.0.tar.gz", File)]) :: d)
    | _ => (Completed 0 "" "", d)
    end;
  stdout_flushes := true
|}.

(** As [all_good], but the standard output cannot be flushed. *)
Definition stdout_closed : env := {|
  importable := fun _ => true;
  sys_executable := "/usr/bin/python3";
  subprocess_run := fun _ _ d => (Completed 0 "" "", d);
  stdout_flushes := false
|}.

(** A project root after an earlier build. *)
Definition project : dir :=
  [ ("pyproject.toml", File);
    ("README.md", File);
    ("pyframe", Dir [("__init__.py", File);
                     ("vendored.egg-info", Dir [("PKG-INFO", File)])]);
    ("build", Dir [("lib", Dir [])]);
    ("dist", Dir [("pyframe-0.0.9.tar.gz", File)]);
    ("pyframe.egg-info", Dir [("PKG-INFO", File)]);
    ("notes.egg-info", File);
    (".hidden.egg-info", Dir []) ].

(** A project root where [build] is a regular file. *)
Definition build_is_file : dir :=
  [ ("pyproject.toml", File); ("build", File) ].


(** A directory without the marker file. *)
Definition elsewhere : dir :=
  [ ("build", Dir []); ("x.egg-info", Dir []) ].


(** A project root where [build] may not be deleted. *)
Definition locked_build : dir :=
  [ ("pyproject.toml", File); ("build", Locked) ].

Definition at_ (d : dir) (lines : list string) : state :=
  {| fs := d; stdin := lines |}.

End Sample.

(** ** Facts about directories *)

Section DirFacts.

Implicit Types (d pre : dir) (n p pattern : string) (x y : node).

Lemma lookup_None n d : lookup n d = None <-> ~ In n (listdir d).
Proof.
  induction d as [|[m z] d IH]; simpl; [tauto|].
  destruct (String.eqb_spec n m) as [->|Hne].
  - split; [discriminate|]. intros H. exfalso. apply H. now left.
  - rewrite IH. split.
    + intros H [Heq|Hin]; [now apply Hne|now apply H].
    + intros H Hin. apply H. now right.
Qed.

Lemma In_listdir n x d : In (n, x) d -> In n (listdir d).
Proof. intros H. apply (in_map fst) in H. exact H. Qed.


Lemma lookup_In n x d : lookup n d = Some x -> In (n, x) d.
Proof.
  induction d as [|[m z] d IH]; simpl; [discriminate|].
  destruct (String.eqb_spec n m) as [->|Hne].
  - intros [= ->]. now left.
  - intros H. right. now apply IH.
Qed.

Lemma remove_entry_incl p d e : In e (remove_entry p d) -> In e d.
Proof.
  induction d as [|[m z] d IH]; simpl; [tauto|].
  destruct (String.eqb p m); simpl; [tauto|]. intros [H|H]; auto.
Qed.

Lemma remove_entry_keeps p y d e :
  lookup p d = Some y -> In e d -> e <> (p, y) -> In e (remove_entry p d).
Proof.
  induction d as [|[m z] d IH]; simpl; [tauto|].
  destruct (String.eqb_spec p m) as [->|Hne].
  - intros [= ->] [<-|Hin] Hney; [now elim Hney|exact Hin].
  - intros Hl [<-|Hin] Hney; [now left|]. right. now apply IH.
Qed.

Lemma lookup_remove_other p n d :
  p <> n -> lookup n (remove_entry p d) = lookup n d.
Proof.
  intros Hne. induction d as [|[m z] d IH]; simpl; [reflexivity|].
  destruct (String.eqb_spec p m) as [->|Hpm]; simpl.
  - destruct (String.eqb_spec n m) as [->|_]; [now elim Hne|reflexivity].
  - now rewrite IH.
Qed.

Lemma lookup_remove_same p d :
  NoDup (listdir d) -> lookup p (remove_entry p d) = None.
Proof.
  induction d as [|[m z] d IH]; simpl; [reflexivity|].
  intros Hnd. inversion Hnd as [|? ? Hm Hd]; subst.
  destruct (String.eqb_spec p m) as [->|Hpm]; simpl.
  - now apply lookup_None.
  - destruct (String.eqb_spec p m); [contradiction|]. now apply IH.
Qed.

Lemma listdir_remove_incl p d n :
  In n (listdir (remove_entry p d)) -> In n (listdir d).
Proof.
  unfold listdir. rewrite !in_map_iff. intros [e [He Hin]].
  exists e. split; [exact He|]. now apply remove_entry_incl with p.
Qed.

Lemma NoDup_remove p d :
  NoDup (listdir d) -> NoDup (listdir (remove_entry p d)).
Proof.
  induction d as [|[m z] d IH]; simpl; [trivial|].
  intros Hnd. inversion Hnd as [|? ? Hm Hd]; subst.
  destruct (String.eqb p m); [exact Hd|]. simpl. constructor.
  - intros H. apply Hm. now apply listdir_remove_incl with p.
  - now apply IH.
Qed.

Lemma length_remove_entry p x d :
  lookup p d = Some x -> S (List.length (remove_entry p d)) = List.length d.
Proof.
  induction d as [|[m z] d IH]; simpl; [discriminate|].
  destruct (String.eqb p m); [reflexivity|].
  intros H. simpl. now rewrite IH.
Qed.

Lemma lookup_app_r pre d n :
  ~ In n (listdir pre) -> lookup n (pre ++ d)%list = lookup n d.
Proof.
  induction pre as [|[m z] pre IH]; simpl; [reflexivity|].
  intros H. destruct (String.eqb_spec n m) as [->|Hne]; [|apply IH]; tauto.
Qed.

Lemma remove_entry_app_r pre d n :
  ~ In n (listdir pre) ->
  remove_entry n (pre ++ d)%list = (pre ++ remove_entry n d)%list.
Proof.
  induction pre as [|[m z] pre IH]; simpl; [reflexivity|].
  intros H. destruct (String.eqb_spec n m) as [->|Hne]; [tauto|].
  rewrite IH; tauto.
Qed.

(** [shutil.rmtree] removes real directories and nothing else. *)
Lemma rmtree_error_None p x :
  rmtree_error p x = None <-> exists l, x = Dir l.
Proof.
  destruct x; simpl; split; try discriminate; eauto;
    intros [l H]; discriminate.
Qed.

Lemma clean_plain_incl p d e : In e (snd (clean_plain p d)) -> In e d.
Proof.
  unfold clean_plain. destruct (lookup p d) as [x|]; [|auto].
  destruct (rmtree_error p x); simpl; auto. apply remove_entry_incl.
Qed.

Lemma clean_plain_keeps p d e :
  In e d -> (forall l, e <> (p, Dir l)) -> In e (snd (clean_plain p d)).
Proof.
  unfold clean_plain. destruct (lookup p d) as [x|] eqn:Hl; [|auto].
  destruct (rmtree_error p x) eqn:He; simpl; auto.
  apply rmtree_error_None in He as [l ->]. intros Hin Hne.
  apply remove_entry_keeps with (Dir l); auto.
Qed.

Lemma clean_plain_other p n d :
  p <> n -> lookup n (snd (clean_plain p d)) = lookup n d.
Proof.
  intros Hne. unfold clean_plain. destruct (lookup p d) as [x|]; [|auto].
  destruct (rmtree_error p x); simpl; auto. now apply lookup_remove_other.
Qed.

Lemma clean_plain_NoDup p d :
  NoDup (listdir d) -> NoDup (listdir (snd (clean_plain p d))).
Proof.
  intros Hnd. unfold clean_plain. destruct (lookup p d) as [x|]; [|auto].
  destruct (rmtree_error p x); simpl; auto. now apply NoDup_remove.
Qed.

Lemma clean_plain_gone p d :
  NoDup (listdir d) -> fst (clean_plain p d) = Ok tt ->
  lookup p (snd (clean_plain p d)) = None.
Proof.
  intros Hnd. unfold clean_plain. destruct (lookup p d) as [x|] eqn:Hl; [|auto].
  destruct (rmtree_error p x); simpl; [discriminate|].
  intros _. now apply lookup_remove_same.
Qed.

Lemma clean_plain_absent p d : lookup p d = None -> clean_plain p d = (Ok tt, d).
Proof. unfold clean_plain. now intros ->. Qed.

Lemma clean_plain_raise p d e :
  fst (clean_plain p d) = Raise e -> snd (clean_plain p d) = d.
Proof.
  unfold clean_plain. destruct (lookup p d) as [x|]; [|discriminate].
  destruct (rmtree_error p x); simpl; [reflexivity|discriminate].
Qed.


Lemma clean_plain_length p d :
  List.length (snd (clean_plain p d))
  + (if path_exists p d then
       match fst (clean_plain p d) with Ok _ => 1 | Raise _ => 0 end
     else 0)
  = List.length d.
Proof.
  unfold clean_plain, path_exists.
  destruct (lookup p d) as [x|] eqn:Hl; [|simpl; lia].
  destruct (rmtree_error p x); simpl; [lia|].
  apply length_remove_entry in Hl. lia.
Qed.

Lemma sweep_incl paths d e : In e (snd (sweep paths d)) -> In e d.
Proof.
  revert d. induction paths as [|p paths IH]; simpl; intros d; [tauto|].
  destruct (path_isdir p d); [|apply IH].
  destruct (clean_plain p d) as [[a|x] d1] eqn:Hc; intros H.
  - apply IH in H. apply clean_plain_incl with p. now rewrite Hc.
  - apply clean_plain_incl with p. now rewrite Hc.
Qed.

Lemma sweep_keeps paths d e :
  In e d -> (forall p l, In p paths -> e <> (p, Dir l)) ->
  In e (snd (sweep paths d)).
Proof.
  revert d. induction paths as [|p paths IH]; simpl; intros d Hin Hne;
    [exact Hin|].
  assert (Hrest : forall q l, In q paths -> e <> (q, Dir l))
    by (intros q l Hq; apply Hne; now right).
  destruct (path_isdir p d); [|now apply IH].
  assert (Hin1 : In e (snd (clean_plain p d))).
  { apply clean_plain_keeps; [exact Hin|]. intros l. apply Hne. now left. }
  destruct (clean_plain p d) as [[a|x] d1]; [now apply IH|exact Hin1].
Qed.

Lemma sweep_NoDup paths d :
  NoDup (listdir d) -> NoDup (listdir (snd (sweep paths d))).
Proof.
  revert d. induction paths as [|p paths IH]; simpl; intros d Hnd;
    [exact Hnd|].
  destruct (path_isdir p d); [|now apply IH].
  pose proof (clean_plain_NoDup p d Hnd) as Hnd1.
  destruct (clean_plain p d) as [[a|x] d1]; [now apply IH|exact Hnd1].
Qed.

Lemma lookup_sweep_None paths d n :
  lookup n d = None -> lookup n (snd (sweep paths d)) = None.
Proof.
  rewrite !lookup_None. intros H Hin. apply H.
  unfold listdir in *. rewrite in_map_iff in *.
  destruct Hin as [e [He Hin]]. exists e. split; [exact He|].
  now apply sweep_incl with paths.
Qed.

Lemma sweep_length paths d :
  List.length (snd (sweep paths d)) <= List.length d.
Proof.
  revert d. induction paths as [|p paths IH]; simpl; intros d; [lia|].
  destruct (path_isdir p d); [|apply IH].
  pose proof (clean_plain_length p d) as Hl.
  destruct (clean_plain p d) as [[a|x] d1]; simpl in *;
    [specialize (IH d1)|]; lia.
Qed.

Lemma glob_spec pattern d n :
  In n (glob pattern d) <-> In n (listdir d) /\ matches pattern n = true.
Proof.
  unfold glob, matches. destruct (PyStr.ishidden pattern); simpl;
    rewrite ?filter_In, ?andb_true_iff; tauto.
Qed.

Lemma glob_cons pattern n y d :
  glob pattern ((n, y) :: d)
  = if matches pattern n then n :: glob pattern d else glob pattern d.
Proof.
  unfold glob, matches. destruct (PyStr.ishidden pattern); simpl.
  - now destruct (PyStr.fnmatch pattern n).
  - destruct (PyStr.ishidden n); simpl; [reflexivity|].
    now destruct (PyStr.fnmatch pattern n).
Qed.

Lemma glob_nil pattern : glob pattern [] = [].
Proof. unfold glob. now destruct (PyStr.ishidden pattern). Qed.

(** On a directory with distinct names the loop over the matches visits
    the entries in their order. *)
Lemma sweep_glob pattern pre d :
  NoDup (listdir (pre ++ d)%list) ->
  sweep (glob pattern d) (pre ++ d)%list
  = (fst (sweep_entries pattern d),
     (pre ++ snd (sweep_entries pattern d))%list).
Proof.
  revert pre. induction d as [|[n y] d IH]; intros pre Hnd.
  - now rewrite glob_nil.
  - assert (Hpre : ~ In n (listdir pre)).
    { unfold listdir in *. rewrite map_app in Hnd. simpl in Hnd.
      apply NoDup_remove_2 in Hnd. intros H. apply Hnd, in_or_app. now left. }
    assert (Hnd1 : NoDup (listdir ((pre ++ [(n, y)]) ++ d)%list))
      by now rewrite <- app_assoc.
    assert (Hnd2 : NoDup (listdir (pre ++ d)%list)).
    { unfold listdir in *. rewrite map_app in *. simpl in Hnd.
      now apply NoDup_remove_1 in Hnd. }
    assert (Hskip : sweep (glob pattern d) (pre ++ (n, y) :: d)%list
                    = (fst (sweep_entries pattern d),
                       (pre ++ (n, y) :: snd (sweep_entries pattern d))%list)).
    { specialize (IH (pre ++ [(n, y)])%list Hnd1).
      rewrite <- !app_assoc in IH. exact IH. }
    rewrite glob_cons. cbn [sweep_entries].
    destruct (matches pattern n) eqn:Hm; cbn [andb]; [|exact Hskip].
    cbn [sweep]. unfold path_isdir, clean_plain.
    rewrite lookup_app_r by exact Hpre. cbn [lookup].
    rewrite String.eqb_refl.
    destruct (is_dir y) eqn:Hy; [|exact Hskip].
    destruct (rmtree_error n y) eqn:He; [reflexivity|].
    rewrite remove_entry_app_r by exact Hpre. cbn [remove_entry].
    rewrite String.eqb_refl. now apply IH.
Qed.

Lemma sweep_entries_again pattern d :
  sweep_entries pattern (snd (sweep_entries pattern d))
  = sweep_entries pattern d.
Proof.
  induction d as [|[n y] d IH]; [reflexivity|]. cbn [sweep_entries].
  destruct (matches pattern n && is_dir y) eqn:Hm.
  - destruct (rmtree_error n y) eqn:He; [|exact IH].
    cbn [snd sweep_entries]. now rewrite Hm, He.
  - cbn [snd sweep_entries]. now rewrite Hm, IH.
Qed.


Lemma sweep_entries_filter pattern d :
  fst (sweep_entries pattern d) = Ok tt ->
  snd (sweep_entries pattern d)
  = filter (fun e => negb (matches pattern (fst e) && is_dir (snd e))) d.
Proof.
  induction d as [|[n y] d IH]; [reflexivity|].
  cbn [sweep_entries filter fst snd].
  destruct (matches pattern n && is_dir y) eqn:Hm; cbn [negb].
  - destruct (rmtree_error n y); [discriminate|exact IH].
  - cbn [fst snd]. intros H. now rewrite IH.
Qed.

End DirFacts.

(** ** Running [clean_build] *)

Lemma trace_app (a b : list event) : trace (a ++ b) = (trace a ++ trace b)%list.
Proof. apply filter_app. Qed.

Lemma removed_app (a b : list event) :
  removed (a ++ b) = (removed a ++ removed b)%list.
Proof. apply flat_map_app. Qed.

Lemma loaded_app (a b : list event) :
  loaded (a ++ b) = (loaded a ++ loaded b)%list.
Proof. apply flat_map_app. Qed.

Lemma state_eta (s : state) : {| fs := fs s; stdin := stdin s |} = s.
Proof. now destruct s. Qed.

Lemma remove_matched_run (p : string) (s : state) :
  remove_matched p s
  = if path_isdir p (fs s)
    then (fst (clean_plain p (fs s)),
          {| fs := snd (clean_plain p (fs s)); stdin := stdin s |},
          removal p (fst (clean_plain p (fs s))))
    else (Ok tt, s, []).
Proof.
  unfold remove_matched, bind, os_path_isdir, when, import_stmt,
    shutil_rmtree, print, emit, ret, path_isdir, clean_plain.
  destruct (lookup p (fs s)) as [x|] eqn:Hl; cbn; [|reflexivity].
  destruct (is_dir x); [|reflexivity]. cbn. rewrite Hl.
  destruct (rmtree_error p x); cbn; rewrite ?state_eta; reflexivity.
Qed.

Lemma egg_loop_run (paths : list string) (s : state) :
  exists evs,
    for_each paths remove_matched s
    = (fst (sweep paths (fs s)),
       {| fs := snd (sweep paths (fs s)); stdin := stdin s |}, evs)
    /\ trace evs = []
    /\ List.length (snd (sweep paths (fs s))) + List.length (removed evs)
       = List.length (fs s)
    /\ incl (loaded evs) ["shutil"].
Proof.
  revert s. induction paths as [|p paths IH]; intros s.
  - exists []. simpl. unfold ret. rewrite state_eta.
    repeat split; auto. intros m [].
  - simpl for_each. unfold bind at 1. rewrite remove_matched_run.
    cbn [sweep]. destruct (path_isdir p (fs s)) eqn:Hd.
    + pose proof (clean_plain_length p (fs s)) as Hlen1.
      assert (Hex : path_exists p (fs s) = true).
      { unfold path_exists, path_isdir in *.
        now destruct (lookup p (fs s)). }
      rewrite Hex in Hlen1.
      destruct (clean_plain p (fs s)) as [[[]|e] d1]; cbn [fst snd] in *.
      * destruct (IH {| fs := d1; stdin := stdin s |})
          as [evs [-> [Ht [Hlen Hld]]]].
        cbn [fs stdin] in *.
        eexists. split; [reflexivity|]. split; [exact Ht|]. split.
        -- cbn [removal removed flat_map app List.length].
           fold (removed evs). lia.
        -- cbn [removal loaded flat_map app]. fold (loaded evs).
           intros m [<-|Hm]; [now left|now apply Hld].
      * eexists. split; [reflexivity|]. repeat split.
        -- simpl. lia.
        -- intros m [<-|[]]. now left.
    + destruct (IH s) as [evs [-> [Ht [Hlen Hld]]]].
      exists evs. repeat split; assumption.
Qed.

Lemma clean_pattern_plain (p : string) (s : state) :
  PyStr.contains "*" p = false ->
  clean_pattern p s
  = (fst (clean_plain p (fs s)),
     {| fs := snd (clean_plain p (fs s)); stdin := stdin s |},
     if path_exists p (fs s) then removal p (fst (clean_plain p (fs s)))
     else []).
Proof.
  intros Hp. unfold clean_pattern. rewrite Hp.
  unfold bind, os_path_exists, when, import_stmt, shutil_rmtree, print, emit,
    ret, clean_plain, path_exists.
  destruct (lookup p (fs s)) as [x|] eqn:Hl; cbn; rewrite ?Hl, ?state_eta;
    [|reflexivity].
  destruct (rmtree_error p x); cbn; rewrite ?state_eta; reflexivity.
Qed.

Lemma clean_pattern_glob (p : string) (s : state) :
  PyStr.contains "*" p = true ->
  clean_pattern p s
  = (result (for_each (glob p (fs s)) remove_matched s),
     final (for_each (glob p (fs s)) remove_matched s),
     Load "glob" :: events (for_each (glob p (fs s)) remove_matched s)).
Proof.
  intros Hp. unfold clean_pattern. rewrite Hp.
  unfold bind, import_stmt, emit, glob_glob.
  now destruct (for_each (glob p (fs s)) remove_matched s) as [[[] s1] e1].
Qed.

(** [clean_build] in terms of [cleaned]; every removed tree is one entry
    less in the working directory; the only modules it loads are [glob]
    and [shutil]. *)
Lemma clean_build_run (s : state) :
  exists evs,
    clean_build s
    = (fst (cleaned (fs s)),
       {| fs := snd (cleaned (fs s)); stdin := stdin s |}, evs)
    /\ trace evs = [Call clean_build_f]
    /\ List.length (snd (cleaned (fs s))) + List.length (removed evs)
       = List.length (fs s)
    /\ incl (loaded evs) ["glob"; "shutil"].
Proof.
  unfold clean_build, dirs_to_clean, cleaned. cbn [for_each].
  unfold bind, print, emit, ret. cbv beta iota.
  rewrite (clean_pattern_plain "build" s eq_refl).
  pose proof (clean_plain_length "build" (fs s)) as H1.
  destruct (clean_plain "build" (fs s)) as [[[]|e1] d1]; cbn [fst snd] in *.
  2:{ eexists. split; [reflexivity|].
      destruct (path_exists "build" (fs s)); repeat split;
        try (simpl; lia); intros m Hm; simpl in *; tauto. }
  rewrite (clean_pattern_plain "dist" _ eq_refl). cbn [fs stdin].
  pose proof (clean_plain_length "dist" d1) as H2.
  destruct (clean_plain "dist" d1) as [[[]|e2] d2]; cbn [fst snd] in *.
  2:{ eexists. split; [reflexivity|].
      destruct (path_exists "build" (fs s)), (path_exists "dist" d1);
        repeat split; try (simpl in *; lia);
        intros m Hm; simpl in *; tauto. }
  rewrite (clean_pattern_glob "*.egg-info" _ eq_refl). cbn [fs stdin].
  destruct (egg_loop_run (glob "*.egg-info" d2) {| fs := d2; stdin := stdin s |})
    as [evs [-> [Ht [Hlen Hld]]]].
  cbn [result final events fst snd fs stdin] in *.
  destruct (sweep (glob "*.egg-info" d2) d2) as [[[]|e3] d3];
    cbn [fst snd] in *.
  all: eexists; (split; [reflexivity|]).
  all: rewrite ?app_nil_r.
  all: destruct (path_exists "build" (fs s)), (path_exists "dist" d1);
    cbn [removal List.app].
  all: repeat split;
    [ cbn [trace filter quiet negb]; fold (trace evs); now rewrite Ht
    | cbn [removed flat_map app List.length] in *; fold (removed evs); lia
    | cbn [loaded flat_map app]; fold (loaded evs);
      intros m Hm; cbn [In] in *;
      repeat (destruct Hm as [<-|Hm]; [tauto|]);
      specialize (Hld m Hm); cbn [In] in Hld; tauto ].
Qed.

(** ** Properties of [cleaned] *)

(** A second cleaning finds nothing left to do. *)
Lemma cleaned_idempotent (d : dir) :
  NoDup (listdir d) -> cleaned (snd (cleaned d)) = cleaned d.
Proof.
  intros Hnd. unfold cleaned at 2 3.
  pose proof (clean_plain_NoDup "build" d Hnd) as Hnd1.
  pose proof (clean_plain_gone "build" d Hnd) as Hb1.
  pose proof (clean_plain_raise "build" d) as Hr1.
  destruct (clean_plain "build" d) as [[[]|e1] d1] eqn:H1; cbn [fst snd] in *.
  2:{ rewrite (Hr1 e1 eq_refl) in *. unfold cleaned. now rewrite H1. }
  specialize (Hb1 eq_refl). clear Hr1.
  pose proof (clean_plain_NoDup "dist" d1 Hnd1) as Hnd2.
  pose proof (clean_plain_gone "dist" d1 Hnd1) as Hd2.
  pose proof (clean_plain_raise "dist" d1) as Hr2.
  pose proof (clean_plain_other "dist" "build" d1 ltac:(discriminate)) as Hb2.
  destruct (clean_plain "dist" d1) as [[[]|e2] d2] eqn:H2; cbn [fst snd] in *.
  2:{ rewrite (Hr2 e2 eq_refl) in *. unfold cleaned.
      now rewrite (clean_plain_absent _ _ Hb1), H2. }
  specialize (Hd2 eq_refl). clear Hr2. rewrite Hb1 in Hb2.
  pose proof (sweep_glob "*.egg-info" [] d2 Hnd2) as Hs. cbn [List.app] in Hs.
  pose proof (sweep_NoDup (glob "*.egg-info" d2) d2 Hnd2) as Hnd3.
  pose proof (lookup_sweep_None (glob "*.egg-info" d2) d2 "build" Hb2) as Hb3.
  pose proof (lookup_sweep_None (glob "*.egg-info" d2) d2 "dist" Hd2) as Hd3.
  rewrite Hs in *. cbn [snd] in *. unfold cleaned.
  rewrite (clean_plain_absent _ _ Hb3), (clean_plain_absent _ _ Hd3).
  pose proof (sweep_glob "*.egg-info" [] _ Hnd3) as Hs'.
  cbn [List.app] in Hs'. rewrite Hs', sweep_entries_again.
  now destruct (sweep_entries "*.egg-info" d2).
Qed.

Lemma cleaned_incl (d : dir) (e : string * node) :
  In e (snd (cleaned d)) -> In e d.
Proof.
  unfold cleaned.
  pose proof (clean_plain_incl "build" d e) as H1.
  destruct (clean_plain "build" d) as [[[]|e1] d1]; [|exact H1].
  pose proof (clean_plain_incl "dist" d1 e) as H2.
  destruct (clean_plain "dist" d1) as [[[]|e2] d2]; cbn [snd] in *;
    [|now auto].
  intros H. apply sweep_incl in H. auto.
Qed.

Lemma cleaned_keeps (d : dir) (n : string) (y : node) :
  In (n, y) d -> n <> "build" -> n <> "dist" ->
  matches "*.egg-info" n && is_dir y = false ->
  In (n, y) (snd (cleaned d)).
Proof.
  intros Hin Hb Hd Hm. unfold cleaned.
  assert (Hin1 : In (n, y) (snd (clean_plain "build" d))).
  { apply clean_plain_keeps; [exact Hin|]. intros l [= -> _]. now apply Hb. }
  destruct (clean_plain "build" d) as [[[]|e1] d1]; [|exact Hin1].
  cbn [snd] in Hin1.
  assert (Hin2 : In (n, y) (snd (clean_plain "dist" d1))).
  { apply clean_plain_keeps; [exact Hin1|]. intros l [= -> _]. now apply Hd. }
  destruct (clean_plain "dist" d1) as [[[]|e2] d2]; [|exact Hin2].
  cbn [snd] in Hin2. apply sweep_keeps; [exact Hin2|].
  intros p l Hp [= -> ->]. apply glob_spec in Hp as [_ Hp].
  rewrite Hp in Hm. discriminate.
Qed.






Lemma filter_id {A} (f : A -> bool) (l : list A) :
  (forall a, In a l -> f a = true) -> filter f l = l.
Proof.
  intros H. apply forallb_filter_id, forallb_forall. exact H.
Qed.

Lemma filter_twice {A} (f g : A -> bool) (l : list A) :
  filter f (filter g l) = filter (fun a => g a && f a) l.
Proof.
  induction l as [|a l IH]; [reflexivity|].
  cbn [filter]. destruct (g a); cbn [filter andb]; now rewrite IH.
Qed.

Lemma remove_entry_filter (p : string) (d : dir) :
  NoDup (listdir d) ->
  remove_entry p d = filter (fun e => negb (String.eqb (fst e) p)) d.
Proof.
  induction d as [|[m z] d IH]; [reflexivity|].
  intros Hnd. inversion Hnd as [|? ? Hm Hd]; subst.
  cbn [remove_entry filter fst].
  destruct (String.eqb_spec p m) as [->|Hne].
  - rewrite String.eqb_refl. cbn [negb]. symmetry. apply filter_id.
    intros [n y] Hin. cbn [fst]. apply negb_true_iff, String.eqb_neq.
    intros ->. apply Hm. now apply In_listdir with y.
  - assert (Hmp : String.eqb m p = false)
      by (apply String.eqb_neq; congruence).
    rewrite Hmp. cbn [negb]. now rewrite IH.
Qed.

Lemma clean_plain_filter (p : string) (d : dir) :
  NoDup (listdir d) -> fst (clean_plain p d) = Ok tt ->
  snd (clean_plain p d) = filter (fun e => negb (String.eqb (fst e) p)) d.
Proof.
  intros Hnd. unfold clean_plain.
  destruct (lookup p d) as [x|] eqn:Hl.
  - destruct (rmtree_error p x); [discriminate|]. intros _.
    now apply remove_entry_filter.
  - intros _. symmetry. apply filter_id. intros [n y] Hin. cbn [fst].
    apply negb_true_iff, String.eqb_neq. intros ->.
    apply lookup_None in Hl. apply Hl. now apply In_listdir with y.
Qed.

(** What a completed cleanup leaves. *)
Lemma cleaned_filter (d : dir) :
  NoDup (listdir d) -> fst (cleaned d) = Ok tt ->
  snd (cleaned d) = filter kept d.
Proof.
  intros Hnd. unfold cleaned.
  pose proof (clean_plain_NoDup "build" d Hnd) as Hnd1.
  pose proof (clean_plain_filter "build" d Hnd) as Hf1.
  destruct (clean_plain "build" d) as [[[]|e1] d1]; [|discriminate].
  cbn [fst snd] in *. specialize (Hf1 eq_refl).
  pose proof (clean_plain_NoDup "dist" d1 Hnd1) as Hnd2.
  pose proof (clean_plain_filter "dist" d1 Hnd1) as Hf2.
  destruct (clean_plain "dist" d1) as [[[]|e2] d2]; [|discriminate].
  cbn [fst snd] in *. specialize (Hf2 eq_refl).
  pose proof (sweep_glob "*.egg-info" [] d2 Hnd2) as Hs. cbn [List.app] in Hs.
  rewrite Hs. cbn [fst snd]. intros Hok.
  rewrite (sweep_entries_filter _ _ Hok), Hf2, Hf1, !filter_twice.
  apply filter_ext. intros [n y]. unfold kept. cbn [fst snd].
  destruct (String.eqb n "build"), (String.eqb n "dist"),
    (matches "*.egg-info" n), (is_dir y); reflexivity.
Qed.

(** ** The pattern ["*.egg-info"] *)

Lemma fnmatch_star_unfold (p n : string) :
  PyStr.fnmatch (String "*" p) n
  = PyStr.fnmatch p n
    || match n with
       | EmptyString => false
       | String _ n' => PyStr.fnmatch (String "*" p) n'
       end.
Proof. destruct n; reflexivity. Qed.

Lemma fnmatch_star (p n : string) :
  PyStr.fnmatch (String "*" p) n = true
  <-> exists a b, n = a ++ b /\ PyStr.fnmatch p b = true.
Proof.
  induction n as [|c n IH]; rewrite fnmatch_star_unfold, orb_true_iff.
  - split.
    + intros [H|H]; [|discriminate]. now exists "", "".
    + intros [a [b [Hab Hb]]]. left.
      destruct a; [|discriminate]. simpl in Hab. now subst b.
  - rewrite IH. split.
    + intros [H|[a [b [-> Hb]]]].
      * now exists "", (String c n).
      * now exists (String c a), b.
    + intros [a [b [Hab Hb]]]. destruct a as [|c' a]; simpl in Hab.
      * left. now subst b.
      * right. injection Hab as -> ->. now exists a, b.
Qed.

Lemma fnmatch_egg_info_suffix (b : string) :
  PyStr.fnmatch ".egg-info" b = String.eqb ".egg-info" b.
Proof.
  do 10 (destruct b as [|? b]; [reflexivity|cbn; f_equal]).
  reflexivity.
Qed.

(** The names the cleanup pattern selects: those that end in
    [.egg-info] and do not start with a dot. *)
Lemma matches_egg_info (n : string) :
  matches "*.egg-info" n = true
  <-> (exists stem, n = stem ++ ".egg-info") /\ PyStr.ishidden n = false.
Proof.
  unfold matches. cbn [PyStr.ishidden orb].
  rewrite andb_true_iff, negb_true_iff.
  change "*.egg-info" with (String "*" ".egg-info").
  rewrite fnmatch_star. split.
  - intros [Hh [a [b [-> Hb]]]]. split; [|exact Hh].
    rewrite fnmatch_egg_info_suffix in Hb. apply String.eqb_eq in Hb.
    subst b. now exists a.
  - intros [[stem ->] Hh]. split; [exact Hh|].
    exists stem, ".egg-info". split; reflexivity.
Qed.

(** ** Running [check_requirements] and [run_command] *)

Lemma check_requirements_loop_run (E : env) (packages : list string)
      (s : state) :
  check_requirements_loop E packages s
  = (Ok (forallb (importable E) packages), s,
     flat_map (status E) (attempted E packages)).
Proof.
  induction packages as [|p rest IH]; [reflexivity|].
  cbn [check_requirements_loop attempted forallb flat_map].
  unfold status.
  cbv beta iota delta [bind try_except_ImportError import_].
  destruct (importable E p) eqn:Hp;
    cbv beta iota delta [bind emit print ret raise].
  - rewrite IH. reflexivity.
  - reflexivity.
Qed.

Lemma check_requirements_run (E : env) (s : state) :
  check_requirements E s
  = (Ok (forallb (importable E) required_packages), s,
     Print "🔍 Checking requirements..."
     :: flat_map (status E) (attempted E required_packages)).
Proof.
  unfold check_requirements, bind at 1, print, emit.
  now rewrite check_requirements_loop_run.
Qed.

Lemma run_command_run (E : env) (cmd : list string) (cwd : option string)
      (s : state) :
  cmd <> [] ->
  run_command E cmd cwd s
  = match subprocess_run E cmd cwd (fs s) with
    | (Completed rc out err, d) =>
        (Ok (rc =? 0)%Z, {| fs := d; stdin := stdin s |},
         Print ("Running: " ++ PyStr.join " " cmd)
         :: Spawn cmd cwd (Completed rc out err)
         :: report cmd rc out err)
    | (NotStarted, _) =>
        (Raise (OSError cmd), s,
         [Print ("Running: " ++ PyStr.join " " cmd);
          Spawn cmd cwd NotStarted])
    | (Undecodable, d) =>
        (Raise UnicodeDecodeError, {| fs := d; stdin := stdin s |},
         [Print ("Running: " ++ PyStr.join " " cmd);
          Spawn cmd cwd Undecodable])
    | (Rejected, _) =>
        (Raise ValueError, s,
         [Print ("Running: " ++ PyStr.join " " cmd);
          Spawn cmd cwd Rejected])
    end.
Proof.
  intros Hcmd. unfold run_command, report.
  cbv beta iota delta [bind emit print subprocess_run_].
  destruct cmd as [|c args]; [now elim Hcmd|].
  destruct (subprocess_run E (c :: args) cwd (fs s)) as [[rc out err| | |] d];
    try reflexivity.
  cbn [returncode stdout stderr].
  destruct (rc =? 0)%Z; cbn [negb];
    cbv beta iota delta [bind emit print ret when].
  - destruct (nonempty out); reflexivity.
  - reflexivity.
Qed.

(** The commands of the workflow start with the interpreter. *)
Lemma cmds_nonempty (E : env) :
  build_cmd E <> [] /\ check_cmd E <> [] /\ upload_test_cmd E <> []
  /\ upload_cmd E <> [].
Proof. repeat split; discriminate. Qed.

(** ** Stepping through [main] *)

Lemma trace_report (cmd : list string) (rc : Z) (out err : string) :
  trace (report cmd rc out err) = [].
Proof.
  unfold report. destruct (rc =? 0)%Z; [|reflexivity].
  destruct (nonempty out); reflexivity.
Qed.

Lemma calls_trace (evs : list event) : calls (trace evs) = calls evs.
Proof.
  induction evs as [|[] evs IH]; simpl; rewrite ?IH; reflexivity.
Qed.

Lemma spawned_trace (evs : list event) : spawned (trace evs) = spawned evs.
Proof.
  induction evs as [|[] evs IH]; simpl; rewrite ?IH; reflexivity.
Qed.

Lemma In_trace (e : event) (evs : list event) :
  quiet e = false -> (In e (trace evs) <-> In e evs).
Proof.
  intros Hq. unfold trace. rewrite filter_In, Hq. simpl. tauto.
Qed.

Lemma trace_Call (f : func) (evs : list event) :
  trace (Call f :: evs) = Call f :: trace evs.
Proof. reflexivity. Qed.

Lemma trace_Print (l : string) (evs : list event) :
  trace (Print l :: evs) = trace evs.
Proof. reflexivity. Qed.

Lemma trace_Input (p : string) (l : option string) (evs : list event) :
  trace (Input p l :: evs) = Input p l :: trace evs.
Proof. reflexivity. Qed.

Lemma trace_Import (n : string) (b : bool) (evs : list event) :
  trace (Import n b :: evs) = Import n b :: trace evs.
Proof. reflexivity. Qed.

Lemma trace_Rmtree (p : string) (evs : list event) :
  trace (Rmtree p :: evs) = trace evs.
Proof. reflexivity. Qed.

Lemma trace_Load (m : string) (evs : list event) :
  trace (Load m :: evs) = trace evs.
Proof. reflexivity. Qed.

Lemma trace_Spawn (c : list string) (w : option string) (r : run_outcome)
      (evs : list event) :
  trace (Spawn c w r :: evs) = Spawn c w r :: trace evs.
Proof. reflexivity. Qed.

Lemma trace_nil : trace [] = [].
Proof. reflexivity. Qed.

Lemma trace_status (E : env) (p : string) :
  trace (status E p) = [Import p (importable E p)].
Proof. unfold status. now destruct (importable E p). Qed.

Lemma triple_eq {A B C} (a a' : A) (b b' : B) (c c' : C) :
  (a, b, c) = (a', b', c') -> a' = a /\ b' = b /\ c' = c.
Proof. now intros [= -> -> ->]. Qed.

(** The term whose value decides how the run in [t] goes on. *)
Ltac head_stuck t :=
  lazymatch t with
  | match ?x with _ => _ end => head_stuck x
  | (match ?x with _ => _ end) _ => head_stuck x
  | negb ?b => head_stuck b
  | andb ?b _ => head_stuck b
  | _ => t
  end.

Ltac norm H :=
  cbv beta iota zeta delta
    [main dispatch publish build_package check_package upload_to_test_pypi
     upload_to_pypi bind emit print ret raise sys_exit os_path_exists input]
    in H;
  cbn [fs stdin fst snd negb required_packages forallb andb attempted
       flat_map] in H.

Ltac step H :=
  lazymatch type of H with
  | ?lhs = _ =>
      let t := head_stuck lhs in
      lazymatch t with
      | check_requirements _ _ => rewrite check_requirements_run in H
      | run_command _ _ _ _ =>
          rewrite run_command_run in H by (intros [=])
      | clean_build ?s =>
          let cevs := fresh "cevs" in
          let Hc := fresh "Hc" in
          let Ht := fresh "Ht" in
          destruct (clean_build_run s) as [cevs [Hc [Ht _]]];
          rewrite Hc in H; clear Hc
      | (_, _) => fail
      | _ => destruct t eqn:?
      end
  end.

(** Runs [main] to each of its ends; [H] is [main E s = (r, s', evs)]. *)
Ltac run_main H :=
  norm H; repeat (step H; norm H);
  apply triple_eq in H; destruct H as (-> & -> & ->).

(** Brings the events of an end of [main] to those that are not quiet;
    [HT] is [T = trace evs]. *)
Ltac quieten HT :=
  repeat progress
    (rewrite ?trace_app, ?trace_Call, ?trace_Print, ?trace_Input,
       ?trace_Import, ?trace_Rmtree, ?trace_Load, ?trace_Spawn, ?trace_nil,
       ?trace_report, ?trace_status in HT);
  repeat match goal with
         | Ht : trace ?c = _ |- _ => rewrite Ht in HT; clear Ht
         end;
  cbn [List.app] in HT.

(** ** [clean_build] *)

Lemma clean_build_final (s : state) :
  fs (final (clean_build s)) = snd (cleaned (fs s))
  /\ stdin (final (clean_build s)) = stdin s
  /\ result (clean_build s) = fst (cleaned (fs s)).
Proof.
  destruct (clean_build_run s) as [evs [-> _]]. repeat split.
Qed.

(** C8. [clean_build] is idempotent: on a working directory (its entry names
    are distinct), a second run right after the first leaves the directory
    as the first run left it, ends the same way and removes nothing; and
    for a path that is absent the loop body does nothing and raises
    nothing, as does a pattern without matches, for which only the [import
    glob] statement runs. *)
Theorem clean_build_idempotent (s : state) :
  NoDup (listdir (fs s)) ->
  let once := clean_build s in
  let twice := clean_build (final once) in
  final twice = final once
  /\ result twice = result once
  /\ removed (events twice) = []
  /\ (forall p, PyStr.contains "*" p = false ->
                path_exists p (fs s) = false ->
                clean_pattern p s = (Ok tt, s, []))
  /\ (forall p, PyStr.contains "*" p = true ->
                glob p (fs s) = [] ->
                clean_pattern p s = (Ok tt, s, [Load "glob"])).
Proof.
  intros Hnd once twice.
  destruct (clean_build_final s) as (Hfs & Hin & Hres).
  fold once in Hfs, Hin, Hres.
  destruct (clean_build_run (final once)) as [evs [Hrun [_ [Hlen _]]]].
  fold twice in Hrun.
  pose proof (cleaned_idempotent (fs s) Hnd) as Hidem.
  rewrite <- Hfs in Hidem.
  assert (Hfinal : final twice = final once).
  { rewrite Hrun. cbn [final fst snd]. rewrite Hidem, <- Hfs.
    apply state_eta. }
  split; [exact Hfinal|]. split; [|split; [|split]].
  - rewrite Hrun. cbn [result fst]. rewrite Hidem. cbn [fst]. now rewrite Hres.
  - rewrite Hidem in Hlen. cbn [snd] in Hlen. rewrite <- Hfs in Hlen.
    assert (Hev : events twice = evs) by now rewrite Hrun.
    rewrite Hev. destruct (removed evs); [reflexivity|simpl in Hlen; lia].
  - intros p Hp Hex. rewrite (clean_pattern_plain p s Hp), Hex.
    unfold clean_plain. unfold path_exists in Hex.
    destruct (lookup p (fs s)); [discriminate|]. cbn [fst snd].
    now rewrite state_eta.
  - intros p Hp Hg. rewrite (clean_pattern_glob p s Hp), Hg. reflexivity.
Qed.

Lemma clean_build_idempotent_witness :
  let s := Sample.at_ Sample.project [] in
  NoDup (listdir (fs s))
  /\ map fst (fs (final (clean_build s)))
     = ["pyproject.toml"; "README.md"; "pyframe"; "notes.egg-info";
        ".hidden.egg-info"]
  /\ final (clean_build (final (clean_build s))) = final (clean_build s).
Proof.
  assert (Hnd : NoDup (listdir (fs (Sample.at_ Sample.project [])))).
  { simpl. repeat constructor; simpl; intuition discriminate. }
  split; [exact Hnd|]. split; [reflexivity|].
  exact (proj1 (clean_build_idempotent _ Hnd)).
Defined.

(** C9. The cleanup touches no entry of the working directory other than
    [build], [dist] and the directories whose names [glob] selects for
    ["*.egg-info"] (names that end in [.egg-info] and do not start with a
    dot).  Every entry left was there before; every other entry, with all
    it holds, is still there: regular files with a matching name, and
    directories that hold an egg-info directory further down. *)
Theorem clean_build_frame (s : state) :
  let after := fs (final (clean_build s)) in
  (forall e, In e after -> In e (fs s))
  /\ (forall n y, In (n, y) (fs s) -> n <> "build" -> n <> "dist" ->
                  matches "*.egg-info" n && is_dir y = false ->
                  In (n, y) after)
  /\ (forall n, matches "*.egg-info" n = true
                <-> (exists stem, n = stem ++ ".egg-info")
                    /\ PyStr.ishidden n = false).
Proof.
  intros after. unfold after.
  destruct (clean_build_final s) as (-> & _ & _).
  split; [apply cleaned_incl|]. split; [apply cleaned_keeps|].
  apply matches_egg_info.
Qed.

(** What a completed cleanup leaves: no [build], no [dist], and no
    directory with a name the pattern selects. *)
Lemma clean_build_removes (s : state) :
  NoDup (listdir (fs s)) ->
  result (clean_build s) = Ok tt ->
  let after := fs (final (clean_build s)) in
  lookup "build" after = None
  /\ lookup "dist" after = None
  /\ (forall n, matches "*.egg-info" n = true -> path_isdir n after = false).
Proof.
  intros Hnd Hok after. unfold after.
  destruct (clean_build_final s) as (-> & _ & Hres).
  rewrite Hres in Hok. rewrite (cleaned_filter _ Hnd Hok).
  assert (Hk : forall n y, lookup n (filter kept (fs s)) = Some y ->
                           kept (n, y) = true).
  { intros n y Hl. apply lookup_In, filter_In in Hl. tauto. }
  unfold kept in Hk. cbn [fst snd] in Hk.
  repeat split.
  - destruct (lookup "build" (filter kept (fs s))) as [y|] eqn:Hl;
      [|reflexivity]. now apply Hk in Hl.
  - destruct (lookup "dist" (filter kept (fs s))) as [y|] eqn:Hl;
      [|reflexivity]. apply Hk in Hl. now rewrite orb_true_r in Hl.
  - intros n Hm. unfold path_isdir.
    destruct (lookup n (filter kept (fs s))) as [y|] eqn:Hl; [|reflexivity].
    apply Hk in Hl. rewrite Hm in Hl. destruct (is_dir y); [|reflexivity].
    now rewrite !orb_true_r in Hl.
Qed.

(** A project root after an earlier build: the cleanup removes [build],
    [dist] and [pyframe.egg-info]; the regular file [notes.egg-info], the
    hidden [.hidden.egg-info] and the egg-info directory inside [pyframe]
    stay. *)
Example clean_build_project :
  let x := clean_build (Sample.at_ Sample.project []) in
  removed (events x) = ["build"; "dist"; "pyframe.egg-info"]
  /\ fs (final x)
     = [ ("pyproject.toml", File);
         ("README.md", File);
         ("pyframe", Dir [("__init__.py", File);
                          ("vendored.egg-info", Dir [("PKG-INFO", File)])]);
         ("notes.egg-info", File);
         (".hidden.egg-info", Dir []) ].
Proof. split; reflexivity. Qed.


(** The same with a directory [build] that the user may not delete. *)
Example clean_build_raises_on_locked :
  let s := Sample.at_ Sample.locked_build [] in
  path_isdir "build" (fs s) = true
  /\ result (clean_build s) = Raise (PermissionError "build")
  /\ fs (final (clean_build s)) = fs s.
Proof. repeat split. Qed.



(** ** [check_requirements] *)



(** C4 does not hold the other way round either: with only [twine]
    missing the check has tried both tools and returns false. *)
Example check_requirements_tried_all :
  let E := {| importable := fun p => String.eqb p "build";
              sys_executable := "/usr/bin/python3";
              subprocess_run := fun _ _ d => (Completed 0 "" "", d);
              stdout_flushes := true |} in
  let x := check_requirements E (Sample.at_ Sample.project []) in
  result x = Ok false /\ imports (events x) = ["build"; "twine"].
Proof. split; reflexivity. Qed.


(** ** [run_command] *)


(** It fails as well when the child ran and ended, but what it printed is
    not text: [subprocess.run] raises after the child has changed the
    directory. *)
Example run_command_undecodable :
  let x := run_command Sample.build_garbles
             ["/usr/bin/python3"; "-m"; "build"] None
             (Sample.at_ Sample.build_is_file []) in
  result x = Raise UnicodeDecodeError
  /\ listdir (fs (final x)) = ["dist"; "pyproject.toml"; "build"].
Proof. split; reflexivity. Qed.



(** ** [main] *)

Lemma uploads_trace (evs : list event) : uploads (trace evs) = uploads evs.
Proof. unfold uploads. now rewrite spawned_trace. Qed.

(** C3. Without [pyproject.toml] in the working directory [main] prints its
    banner and the error, and exits with status 1: no package is imported,
    no function of the workflow is called, no process is spawned, nothing
    is removed and nothing is read; the working directory stays as it
    was. *)
Theorem main_without_marker (E : env) (s : state) :
  path_exists "pyproject.toml" (fs s) = false ->
  let x := main E s in
  exit_status (result x) = 1%Z
  /\ final x = s
  /\ spawned (events x) = []
  /\ removed (events x) = []
  /\ calls (events x) = []
  /\ imports (events x) = []
  /\ trace (events x) = [].
Proof.
  intros H. unfold main.
  cbv beta iota zeta delta [bind print emit os_path_exists sys_exit raise].
  rewrite H. cbn. repeat split.
Qed.

Lemma main_without_marker_witness :
  let s := Sample.at_ Sample.elsewhere ["4"] in
  path_exists "pyproject.toml" (fs s) = false
  /\ exit_status (result (main Sample.all_good s)) = 1%Z
  /\ final (main Sample.all_good s) = s.
Proof.
  split; [reflexivity|].
  pose proof (main_without_marker Sample.all_good
                (Sample.at_ Sample.elsewhere ["4"]) eq_refl) as H.
  cbv zeta in H. destruct H as (H1 & H2 & _). split; assumption.
Defined.

Ltac cases_in Hin :=
  lazymatch type of Hin with
  | _ \/ _ => destruct Hin as [Hin|Hin]; [try discriminate Hin|cases_in Hin]
  | False => contradiction
  | _ => try discriminate Hin
  end.

Ltac unfold_cmds H :=
  unfold build_cmd, check_cmd, upload_test_cmd, upload_cmd in H.

(** Starts a proof about a run of [main] whose events hold [Hin]: runs
    [main] to each of its ends and keeps the ends where [Hin] can hold. *)
Ltac run_with Hin :=
  apply In_trace in Hin; [|reflexivity];
  match goal with
  | |- context [main ?E ?s] =>
      let H := fresh "Hrun" in
      let T := fresh "T" in
      let HT := fresh "HT" in
      destruct (main E s) as [[? ?] ?] eqn:H;
      cbn [result final events fst snd] in *;
      match type of Hin with
      | In _ ?t => remember t as T eqn:HT
      end;
      run_main H; quieten HT; subst T
  end;
  cbn [In] in Hin; cases_in Hin.

(** C2. When the build process ends with a non-zero status, [main] exits
    with status 1 right after the build step: the functions called are
    [clean_build] and [build_package], the build is the only process
    spawned, the check is never run and nothing is uploaded. *)
Theorem build_failure_stops (E : env) (s : state) (rc : Z) (out err : string) :
  let x := main E s in
  In (Spawn (build_cmd E) None (Completed rc out err)) (events x) ->
  rc <> 0%Z ->
  result x = Raise (SystemExit 1)
  /\ exit_status (result x) = 1%Z
  /\ calls (events x) = [clean_build_f; build_package_f]
  /\ spawned (events x) = [build_cmd E]
  /\ uploads (events x) = [].
Proof.
  cbv zeta. rewrite <- calls_trace, <- spawned_trace, <- uploads_trace.
  intros Hin Hrc. run_with Hin.
  all: try (unfold_cmds Hin; discriminate Hin).
  all: injection Hin as -> -> ->.
  all: try match goal with
           | Hz : (_ =? 0)%Z = true |- _ =>
               apply Z.eqb_eq in Hz; contradiction
           end.
  all: repeat split.
Qed.

Lemma build_failure_stops_witness :
  let x := main Sample.build_fails (Sample.at_ Sample.project ["2"]) in
  In (Spawn (build_cmd Sample.build_fails) None
        (Completed 1 "" "error: no backend")) (events x)
  /\ result x = Raise (SystemExit 1)
  /\ spawned (events x) = [build_cmd Sample.build_fails].
Proof.
  assert (Hin : In (Spawn (build_cmd Sample.build_fails) None
                      (Completed 1 "" "error: no backend"))
                   (events (main Sample.build_fails
                              (Sample.at_ Sample.project ["2"])))).
  { vm_compute. tauto. }
  split; [exact Hin|].
  pose proof (build_failure_stops Sample.build_fails
                (Sample.at_ Sample.project ["2"]) 1 "" "error: no backend"
                Hin ltac:(discriminate)) as H.
  cbv zeta in H. destruct H as (H1 & _ & _ & H2 & _). split; assumption.
Defined.

Lemma read_at_menu (evs : list event) (P : string -> Prop) (Q : Prop) :
  (exists line, In (Input menu_prompt (Some line)) (trace evs) /\ P line)
  /\ Q ->
  (exists line, In (Input menu_prompt (Some line)) evs /\ P line) /\ Q.
Proof.
  intros [[line [Hin HP]] HQ]. split; [|exact HQ].
  exists line. split; [|exact HP].
  exact (proj1 (In_trace (Input menu_prompt (Some line)) evs eq_refl) Hin).
Qed.

Ltac string_tests :=
  repeat match goal with
         | H : (_ =? _)%string = true |- _ => apply String.eqb_eq in H
         | H : (_ =? _)%string = false |- _ => apply String.eqb_neq in H
         end.

(** C1. On a run that reads an answer at the confirmation prompt, which
    happens only after menu choice "3", the upload to PyPI is spawned if and
    only if the answer, stripped and lowercased, is "y"; with any other
    answer nothing is uploaded and [main] exits with status 1. *)
Theorem production_needs_confirmation (E : env) (s : state) (answer : string) :
  let x := main E s in
  In (Input confirm_prompt (Some answer)) (events x) ->
  (exists line, In (Input menu_prompt (Some line)) (events x)
                /\ PyStr.strip line = "3")
  /\ (uploads (events x) <> [] <-> PyStr.lower (PyStr.strip answer) = "y")
  /\ (PyStr.lower (PyStr.strip answer) = "y" ->
      uploads (events x) = [upload_cmd E])
  /\ (PyStr.lower (PyStr.strip answer) <> "y" ->
      uploads (events x) = []
      /\ result x = Raise (SystemExit 1)
      /\ exit_status (result x) <> 0%Z).
Proof.
  cbv zeta. rewrite <- uploads_trace. intros Hin.
  apply read_at_menu. run_with Hin.
  all: injection Hin as ->; string_tests.
  all: (split; [eexists; split; [cbn [In]; tauto|assumption]|]).
  all: cbn.
  all: repeat split; intros; try congruence; try discriminate.
Qed.

Lemma production_needs_confirmation_witness :
  let x := main Sample.all_good (Sample.at_ Sample.project [" 3 "; "Y "]) in
  In (Input confirm_prompt (Some "Y ")) (events x)
  /\ uploads (events x) = [upload_cmd Sample.all_good].
Proof.
  assert (Hin : In (Input confirm_prompt (Some "Y "))
                   (events (main Sample.all_good
                              (Sample.at_ Sample.project [" 3 "; "Y "])))).
  { vm_compute. tauto. }
  split; [exact Hin|].
  pose proof (production_needs_confirmation Sample.all_good
                (Sample.at_ Sample.project [" 3 "; "Y "]) "Y " Hin) as H.
  cbv zeta in H. destruct H as (_ & _ & H & _). exact (H eq_refl).
Defined.

(** The answers of the specification: only "y" and "Y", with or without
    blanks around them, confirm. *)
Example confirmation_answers :
  map (fun a => String.eqb (PyStr.lower (PyStr.strip a)) "y")
      ["n"; ""; "yes"; "Y "; "y"; "Y"; " y"; "N"; "yy"]
  = [false; false; false; true; true; true; true; false; false].
Proof. reflexivity. Qed.

Lemma completed_trace (evs : list event) : completed (trace evs) = completed evs.
Proof.
  induction evs as [|[] evs IH]; simpl; rewrite ?IH; reflexivity.
Qed.

Ltac bool_tests :=
  unfold PyStr.mem in *; cbn [existsb] in *;
  repeat match goal with
         | H : _ || _ = false |- _ =>
             apply orb_false_iff in H; destruct H
         | H : (_ =? 0)%Z = true |- _ => apply Z.eqb_eq in H; subst
         | H : _ || _ = true |- _ =>
             apply orb_true_iff in H; destruct H
         | H : false = true |- _ => discriminate H
         end;
  string_tests.

(** Evaluates the goal at an end of [main] with what the run has found
    out. *)
Ltac settle :=
  repeat (cbn [fst snd];
          match goal with
          | H : ?b = _ |- context [?b] => rewrite H
          end);
  repeat match goal with
         | H : (PyStr.strip ?l =? ?k)%string = true |- _ =>
             apply String.eqb_eq in H; rewrite ?H
         end;
  cbn;
  repeat (cbn [fst snd];
          match goal with
          | H : ?b = _ |- context [?b] => rewrite H
          end);
  cbn.

(** C7. On a run that reads a line at the menu, the stripped line decides
    which functions of the workflow are called and which commands are
    handed to [subprocess.run]: exactly the sequence prescribed for the
    choice, up to and including the first operation that does not
    succeed, and [main] returns exactly when all of them succeed.  "4":
    [clean_build] and nothing else.  "1": clean, build and check in this
    order, no upload.  "2": these and then the upload to Test PyPI.  "3":
    these and then, once confirmed, the upload to PyPI.  Any other line:
    none of them, the working directory is left as it was and [main] exits
    with status 1.  An upload is spawned only after the build and the check
    ended with status 0. *)
Theorem menu_choice_operations (E : env) (s : state) (line : string) :
  let x := main E s in
  let choice := PyStr.strip line in
  In (Input menu_prompt (Some line)) (events x) ->
  calls (events x) = map fst (prescribed E s choice)
  /\ spawned (events x) = commands (prescribed E s choice)
  /\ (result x = Ok tt <-> completes E s choice = true)
  /\ (choice = "4" ->
      calls (events x) = [clean_build_f] /\ spawned (events x) = [])
  /\ (choice = "1" ->
      prefix (calls (events x))
             [clean_build_f; build_package_f; check_package_f]
      /\ prefix (spawned (events x)) [build_cmd E; check_cmd E]
      /\ (result x = Ok tt ->
          calls (events x) = [clean_build_f; build_package_f; check_package_f]
          /\ spawned (events x) = [build_cmd E; check_cmd E]))
  /\ (choice = "2" ->
      prefix (calls (events x))
             [clean_build_f; build_package_f; check_package_f;
              upload_to_test_pypi_f]
      /\ prefix (spawned (events x))
                [build_cmd E; check_cmd E; upload_test_cmd E]
      /\ (result x = Ok tt ->
          calls (events x)
          = [clean_build_f; build_package_f; check_package_f;
             upload_to_test_pypi_f]
          /\ spawned (events x)
             = [build_cmd E; check_cmd E; upload_test_cmd E]))
  /\ (choice = "3" ->
      prefix (calls (events x))
             [clean_build_f; build_package_f; check_package_f;
              upload_to_pypi_f]
      /\ prefix (spawned (events x)) [build_cmd E; check_cmd E; upload_cmd E]
      /\ (result x = Ok tt ->
          calls (events x)
          = [clean_build_f; build_package_f; check_package_f;
             upload_to_pypi_f]
          /\ spawned (events x) = [build_cmd E; check_cmd E; upload_cmd E]))
  /\ (PyStr.mem choice ["1"; "2"; "3"; "4"] = false ->
      calls (events x) = [] /\ spawned (events x) = []
      /\ fs (final x) = fs s /\ result x = Raise (SystemExit 1))
  /\ (uploads (events x) <> [] ->
      exists rest,
        completed (events x)
        = (build_cmd E, 0%Z) :: (check_cmd E, 0%Z) :: rest).
Proof.
  cbv zeta. rewrite <- calls_trace, <- spawned_trace, <- uploads_trace,
    <- completed_trace.
  unfold prescribed, completes, upload_of, confirmed, upload_step,
    check_step, build_step.
  destruct (clean_build_final s) as (-> & _ & ->).
  intros Hin. run_with Hin.
  all: injection Hin as ->.
  all: settle.
  all: repeat split; intros; bool_tests; subst; try congruence;
    try discriminate.
  all: try (unfold prefix; eexists; reflexivity).
Qed.

Lemma menu_choice_operations_witness :
  let x := main Sample.all_good (Sample.at_ Sample.project ["2"]) in
  In (Input menu_prompt (Some "2")) (events x)
  /\ calls (events x)
     = [clean_build_f; build_package_f; check_package_f;
        upload_to_test_pypi_f]
  /\ spawned (events x)
     = [build_cmd Sample.all_good; check_cmd Sample.all_good;
        upload_test_cmd Sample.all_good]
  /\ result x = Ok tt.
Proof.
  assert (Hin : In (Input menu_prompt (Some "2"))
                   (events (main Sample.all_good
                              (Sample.at_ Sample.project ["2"])))).
  { vm_compute. tauto. }
  split; [exact Hin|].
  pose proof (menu_choice_operations Sample.all_good
                (Sample.at_ Sample.project ["2"]) "2" Hin) as H.
  cbv zeta in H. destruct H as (Hc & Hs & Hr & _).
  split; [rewrite Hc; reflexivity|].
  split; [rewrite Hs; reflexivity|]. apply Hr. reflexivity.
Defined.

(** The sequences of the four choices when every operation succeeds, and
    of choice "3" when the confirmation is declined. *)
Example prescribed_sequences :
  map (fun lines =>
         map fst (prescribed Sample.all_good
                    (Sample.at_ Sample.project lines)
                    (PyStr.strip (hd "" lines))))
      [["4"]; ["1"]; [" 2"]; ["3"; "y"]; ["3"; "n"]; ["5"]]
  = [ [clean_build_f];
      [clean_build_f; build_package_f; check_package_f];
      [clean_build_f; build_package_f; check_package_f;
       upload_to_test_pypi_f];
      [clean_build_f; build_package_f; check_package_f; upload_to_pypi_f];
      [clean_build_f; build_package_f; check_package_f];
      [] ].
Proof. reflexivity. Qed.




Ltac run_all :=
  match goal with
  | |- context [main ?E ?s] =>
      let H := fresh "Hrun" in
      let T := fresh "T" in
      let HT := fresh "HT" in
      destruct (main E s) as [[? ?] ?] eqn:H;
      cbn [result final events fst snd] in *;
      match goal with
      | |- context [trace ?evs] => remember (trace evs) as T eqn:HT
      end;
      run_main H; quieten HT; subst T
  end.


(** Nor is the status 0 on every normal completion: when [main] returns
    but the interpreter cannot flush the standard output on its way out,
    the process exits with status 120. *)
Example exit_status_unflushed :
  let s := Sample.at_ Sample.project ["4"] in
  let x := main Sample.stdout_closed s in
  result x = Ok tt
  /\ process_exit Sample.stdout_closed (result x) = 120%Z
  /\ failed Sample.stdout_closed s (events x) = false.
Proof. repeat split. Qed.


(** The clean-only and build-only paths end with status 0. *)
Example exit_status_normal :
  map (fun lines =>
         exit_status (result (main Sample.all_good
                                (Sample.at_ Sample.project lines))))
      [["4"]; ["1"]; ["2"]; ["3"; "y"]]
  = [0; 0; 0; 0]%Z.
Proof. reflexivity. Qed.

(** Each listed cause ends with status 1. *)
Example exit_status_failures :
  [ exit_status (result (main Sample.all_good
                           (Sample.at_ Sample.elsewhere ["4"])));
    exit_status (result (main Sample.nothing_installed
                           (Sample.at_ Sample.project ["1"])));
    exit_status (result (main Sample.all_good
                           (Sample.at_ Sample.project ["5"])));
    exit_status (result (main Sample.build_fails
                           (Sample.at_ Sample.project ["1"])));
    exit_status (result (main Sample.check_fails
                           (Sample.at_ Sample.project ["1"])));
    exit_status (result (main Sample.all_good
                           (Sample.at_ Sample.project ["3"; "N"])));
    exit_status (result (main Sample.upload_fails
                           (Sample.at_ Sample.project ["2"]))) ]
  = [1; 1; 1; 1; 1; 1; 1]%Z.
Proof. reflexivity. Qed.


(** ** The end-to-end scenarios of the specification *)

(** Scenario A: choice "1" with everything in place. *)
Example scenario_A :
  let x := main Sample.all_good (Sample.at_ Sample.project ["1"]) in
  calls (events x) = [clean_build_f; build_package_f; check_package_f]
  /\ exit_status (result x) = 0%Z
  /\ uploads (events x) = [].
Proof. repeat split. Qed.

(** Scenario B: choice "2", the upload to Test PyPI fails. *)
Example scenario_B :
  let x := main Sample.upload_fails (Sample.at_ Sample.project ["2"]) in
  exit_status (result x) = 1%Z
  /\ existsb
       (String.eqb
          "🔗 Check your package at: https://test.pypi.org/project/pyframe/")
       (printed (events x)) = false.
Proof. split; reflexivity. Qed.

(** Scenario C: choice "3", answer "N". *)
Example scenario_C :
  let x := main Sample.all_good (Sample.at_ Sample.project ["3"; "N"]) in
  uploads (events x) = []
  /\ exit_status (result x) = 1%Z
  /\ existsb
       (String.eqb
          "🔗 Check your package at: https://pypi.org/project/pyframe/")
       (printed (events x)) = false.
Proof. repeat split. Qed.

(** ** More about [main] *)

Lemma lines_read_trace (evs : list event) :
  lines_read (trace evs) = lines_read evs.
Proof.
  induction evs as [|[] evs IH]; simpl; rewrite ?IH; reflexivity.
Qed.

Lemma In_trace_exists {A} (f : A -> event) (P : A -> Prop)
      (evs : list event) :
  (forall a, quiet (f a) = false) ->
  (exists a, In (f a) (trace evs) /\ P a) ->
  exists a, In (f a) evs /\ P a.
Proof.
  intros Hq [a [Hin HP]]. exists a. split; [|exact HP].
  exact (proj1 (In_trace (f a) evs (Hq a)) Hin).
Qed.

Ltac ends_with :=
  first [ exists []; reflexivity
        | eexists [_]; reflexivity
        | eexists [_; _]; reflexivity
        | eexists [_; _; _]; reflexivity ].

(** X1. A child process that ends with a non-zero status is the last one
    [main] spawns, whichever step it is, and [main] exits through
    [sys.exit(1)]. *)
Theorem failed_process_is_last (E : env) (s : state) (cmd : list string)
        (cwd : option string) (rc : Z) (out err : string) :
  let x := main E s in
  In (Spawn cmd cwd (Completed rc out err)) (events x) ->
  rc <> 0%Z ->
  result x = Raise (SystemExit 1)
  /\ exists before, spawned (events x) = (before ++ [cmd])%list.
Proof.
  cbv zeta. rewrite <- spawned_trace. intros Hin Hrc. run_with Hin.
  all: injection Hin; intros; subst.
  all: try match goal with
           | Hz : (_ =? 0)%Z = true |- _ =>
               apply Z.eqb_eq in Hz; contradiction
           end.
  all: split; [reflexivity|cbn; ends_with].
Qed.

Lemma failed_process_is_last_witness :
  let x := main Sample.check_fails (Sample.at_ Sample.project ["2"]) in
  In (Spawn (check_cmd Sample.check_fails) None
        (Completed 1 "" "ERROR InvalidDistribution")) (events x)
  /\ result x = Raise (SystemExit 1).
Proof.
  assert (Hin : In (Spawn (check_cmd Sample.check_fails) None
                      (Completed 1 "" "ERROR InvalidDistribution"))
                   (events (main Sample.check_fails
                              (Sample.at_ Sample.project ["2"])))).
  { vm_compute. tauto. }
  split; [exact Hin|].
  exact (proj1 (failed_process_is_last Sample.check_fails
                  (Sample.at_ Sample.project ["2"]) _ _ 1 _ _ Hin
                  ltac:(discriminate))).
Defined.



(** X3. With the marker file in place and a required tool missing, [main]
    exits with status 1 before the menu: no line is read, no function of
    the workflow is called, no process is spawned, nothing is removed and
    the state stays as it was. *)
Theorem missing_tools_stop (E : env) (s : state) :
  path_exists "pyproject.toml" (fs s) = true ->
  forallb (importable E) required_packages = false ->
  let x := main E s in
  result x = Raise (SystemExit 1)
  /\ final x = s
  /\ calls (events x) = []
  /\ spawned (events x) = []
  /\ lines_read (events x) = []
  /\ removed (events x) = [].
Proof.
  intros Hm Ht. cbv zeta.
  unfold main.
  cbv beta iota zeta delta [bind print emit os_path_exists sys_exit raise].
  rewrite Hm. cbn [negb]. rewrite check_requirements_run, Ht. cbn [negb].
  cbv beta iota. cbn [result final events fst snd].
  unfold status. cbn [required_packages forallb attempted] in *.
  destruct (importable E "build") eqn:Hb; cbn in Ht |- *;
    [destruct (importable E "twine") eqn:Htw; cbn in Ht |- *|];
    try discriminate Ht; rewrite ?Hb, ?Htw; repeat split.
Qed.

Lemma missing_tools_stop_witness :
  let s := Sample.at_ Sample.project ["1"] in
  result (main Sample.nothing_installed s) = Raise (SystemExit 1)
  /\ final (main Sample.nothing_installed s) = s.
Proof.
  pose proof (missing_tools_stop Sample.nothing_installed
                (Sample.at_ Sample.project ["1"]) eq_refl eq_refl) as H.
  cbv zeta in H. destruct H as (H1 & H2 & _). split; assumption.
Defined.

(** X4. When [main] returns, every process it spawned was started and
    ended with status 0. *)
Theorem success_means_every_step_succeeded (E : env) (s : state) :
  let x := main E s in
  result x = Ok tt ->
  (forall c rc, In (c, rc) (completed (events x)) -> rc = 0%Z)
  /\ map fst (completed (events x)) = spawned (events x).
Proof.
  cbv zeta. rewrite <- completed_trace, <- spawned_trace. run_all.
  all: intros Hok; try discriminate Hok.
  all: bool_tests; cbn; (split; [|reflexivity]).
  all: intros c rc Hin; repeat destruct Hin as [Hin|Hin];
    try contradiction; now injection Hin as <- <-.
Qed.

Lemma success_means_every_step_succeeded_witness :
  let x := main Sample.all_good (Sample.at_ Sample.project ["2"]) in
  result x = Ok tt
  /\ map fst (completed (events x)) = spawned (events x).
Proof.
  assert (Hok : result (main Sample.all_good
                          (Sample.at_ Sample.project ["2"])) = Ok tt)
    by reflexivity.
  split; [exact Hok|].
  exact (proj2 (success_means_every_step_succeeded Sample.all_good
                  (Sample.at_ Sample.project ["2"]) Hok)).
Defined.

(** X5. [main] takes the lines it reads from the front of the input, in
    order, and leaves the rest; it reads at most two lines, and a second
    one only after the first chose entry "3". *)
Theorem main_reads_its_input (E : env) (s : state) :
  let x := main E s in
  stdin s = (lines_read (events x) ++ stdin (final x))%list
  /\ List.length (lines_read (events x)) <= 2
  /\ (forall a b, lines_read (events x) = [a; b] -> PyStr.strip a = "3").
Proof.
  cbv zeta. rewrite <- lines_read_trace. run_all.
  all: cbn;
    repeat match goal with H : stdin _ = _ |- _ => rewrite H end;
    (split; [reflexivity|split; [lia|]]).
  all: intros x1 x2 Hab; try discriminate Hab.
  all: injection Hab as <- <-; string_tests; assumption.
Qed.

(** X7. Choice "4" is [clean_build] and nothing more: [main] ends as
    [clean_build] does on the same directory, leaves the directory
    [clean_build] leaves and spawns no process. *)
Theorem clean_only_is_clean_build (E : env) (s : state) (line : string) :
  let x := main E s in
  In (Input menu_prompt (Some line)) (events x) ->
  PyStr.strip line = "4" ->
  result x = result (clean_build s)
  /\ fs (final x) = fs (final (clean_build s))
  /\ spawned (events x) = [].
Proof.
  cbv zeta. rewrite <- spawned_trace. intros Hin H4.
  destruct (clean_build_final s) as (-> & _ & ->).
  run_with Hin.
  all: injection Hin as ->; string_tests; try congruence.
  all: repeat split; try congruence.
  all: match goal with a : unit |- _ => now destruct a end.
Qed.

Lemma clean_only_is_clean_build_witness :
  let s := Sample.at_ Sample.project [" 4"] in
  In (Input menu_prompt (Some " 4")) (events (main Sample.all_good s))
  /\ fs (final (main Sample.all_good s)) = fs (final (clean_build s)).
Proof.
  assert (Hin : In (Input menu_prompt (Some " 4"))
                   (events (main Sample.all_good
                              (Sample.at_ Sample.project [" 4"])))).
  { vm_compute. tauto. }
  split; [exact Hin|].
  pose proof (clean_only_is_clean_build Sample.all_good
                (Sample.at_ Sample.project [" 4"]) " 4" Hin eq_refl) as H.
  cbv zeta in H. destruct H as (_ & H & _). exact H.
Defined.

(** X8. On the build-only path the steps run one after the other on the
    same directory: the build sees what [clean_build] left, the check sees
    what the build left, and [main] ends with what the check left. *)
Theorem build_only_threads_the_directory (E : env) (s : state)
        (line : string) :
  let x := main E s in
  In (Input menu_prompt (Some line)) (events x) ->
  PyStr.strip line = "1" ->
  result x = Ok tt ->
  let cleaned_dir := fs (final (clean_build s)) in
  let built := snd (subprocess_run E (build_cmd E) None cleaned_dir) in
  fs (final x) = snd (subprocess_run E (check_cmd E) None built).
Proof.
  cbv zeta. intros Hin H1 Hok.
  destruct (clean_build_final s) as (-> & _ & _).
  run_with Hin.
  all: injection Hin as ->; string_tests; try congruence;
    try discriminate Hok.
  all: cbn [fs snd];
    repeat (match goal with
            | H : subprocess_run _ _ _ _ = _ |- _ => rewrite H
            end; simpl snd);
    reflexivity.
Qed.

Lemma build_only_threads_the_directory_witness :
  let s := Sample.at_ Sample.project ["1"] in
  In (Input menu_prompt (Some "1")) (events (main Sample.all_good s))
  /\ map fst (fs (final (main Sample.all_good s)))
     = "dist" :: map fst (fs (final (clean_build s))).
Proof.
  assert (Hin : In (Input menu_prompt (Some "1"))
                   (events (main Sample.all_good
                              (Sample.at_ Sample.project ["1"])))).
  { vm_compute. tauto. }
  split; [exact Hin|].
  pose proof (build_only_threads_the_directory Sample.all_good
                (Sample.at_ Sample.project ["1"]) "1" Hin eq_refl eq_refl)
    as H.
  cbv zeta in H. rewrite H. reflexivity.
Defined.

(** X9. The upload to PyPI is never spawned unless an answer was read at
    the confirmation prompt that is "y" once stripped and lowercased. *)
Theorem production_upload_was_confirmed (E : env) (s : state)
        (cwd : option string) (r : run_outcome) :
  let x := main E s in
  In (Spawn (upload_cmd E) cwd r) (events x) ->
  exists answer,
    In (Input confirm_prompt (Some answer)) (events x)
    /\ PyStr.lower (PyStr.strip answer) = "y".
Proof.
  cbv zeta. intros Hin.
  apply (In_trace_exists (fun a => Input confirm_prompt (Some a)));
    [reflexivity|].
  run_with Hin.
  all: try (unfold_cmds Hin; discriminate Hin).
  all: string_tests.
  all: eexists; split; [cbn [In]; tauto|assumption].
Qed.

Lemma production_upload_was_confirmed_witness :
  let x := main Sample.all_good (Sample.at_ Sample.project ["3"; "y"]) in
  In (Spawn (upload_cmd Sample.all_good) None (Completed 0 "" ""))
     (events x)
  /\ exists answer,
       In (Input confirm_prompt (Some answer)) (events x)
       /\ PyStr.lower (PyStr.strip answer) = "y".
Proof.
  assert (Hin : In (Spawn (upload_cmd Sample.all_good) None
                      (Completed 0 "" ""))
                   (events (main Sample.all_good
                              (Sample.at_ Sample.project ["3"; "y"])))).
  { vm_compute. tauto. }
  split; [exact Hin|].
  exact (production_upload_was_confirmed Sample.all_good
           (Sample.at_ Sample.project ["3"; "y"]) None _ Hin).
Defined.

(** X10. When the input ends at a prompt, [EOFError] leaves [main] and
    nothing is uploaded; at the menu prompt this happens before any
    function of the workflow is called, with the state as it was. *)
Theorem end_of_input_raises (E : env) (s : state) (prompt : string) :
  let x := main E s in
  In (Input prompt None) (events x) ->
  result x = Raise EOFError
  /\ uploads (events x) = []
  /\ (prompt = menu_prompt -> calls (events x) = [] /\ final x = s).
Proof.
  cbv zeta. rewrite <- uploads_trace, <- calls_trace. intros Hin.
  run_with Hin.
  all: injection Hin as <-.
  all: repeat split; try reflexivity.
  all: match goal with
       | H : confirm_prompt = menu_prompt |- _ => discriminate H
       end.
Qed.

Lemma end_of_input_raises_witness :
  let x := main Sample.all_good (Sample.at_ Sample.project []) in
  In (Input menu_prompt None) (events x)
  /\ result x = Raise EOFError.
Proof.
  assert (Hin : In (Input menu_prompt None)
                   (events (main Sample.all_good
                              (Sample.at_ Sample.project [])))).
  { vm_compute. tauto. }
  split; [exact Hin|].
  exact (proj1 (end_of_input_raises Sample.all_good
                  (Sample.at_ Sample.project []) menu_prompt Hin)).
Defined.

(** ** More about [clean_build] *)



(** The project root of the samples: [glob] is loaded once, [shutil] once
    for each tree that is removed. *)
Example clean_build_loads :
  loaded (events (clean_build (Sample.at_ Sample.project [])))
  = ["shutil"; "shutil"; "glob"; "shutil"].
Proof. reflexivity. Qed.


